(** * Price comparison backend: observations, cached price statistics,
      price history retention and scraper runs.

    A shallow embedding of
      - [apps/products/models.py]  ([Product], [RetailerProductPrice],
        [PriceHistory]),
      - [apps/products/tasks.py]   ([update_product_prices],
        [increment_view_count], [clean_old_price_data]),
      - [apps/products/views.py]   ([ProductPriceHistoryView]),
      - [apps/products/serializers.py] and [apps/products/admin.py]
        ([get_retailer_name]),
      - [apps/scrapers/models.py]  ([ScraperConfig], [ScraperRun]),
      - [apps/scrapers/tasks.py]   ([run_scraper]),
      - [apps/accounts/views.py]   ([SavedProductToggleView],
        [SearchHistoryListView], [SearchHistoryClearView]).

    Conventions.
      - A database table is a finite map from primary keys to rows.
      - A [DecimalField(max_digits=10, decimal_places=2)] holding a price of
        an observation is the integer number of hundredths (a [Z], negative
        values included).  The quotient [sum(prices) / len(prices)] is a
        rational number of hundredths (a [Q]); nothing in the Python code
        rounds it, and the store keeps what the code assigns.
      - A [DateTimeField] is a number of microseconds since the epoch; the
        value of [timezone.now()] is passed to each operation as [now].
      - A method that reads and writes the database is a function from the
        store to a new store and either a value or the exception raised.
        A write made before an exception is raised stays in the store, as
        it does under Django's autocommit.
      - [django.utils.text.slugify] lives outside the repository: it is a
        parameter ([Django]). *)

From Stdlib Require Import QArith Qround.
From Stdlib Require Import Ascii.
From stdpp Require Import gmap strings list fin_maps pretty sorting.

Local Open Scope Z_scope.

(** ** Exceptions and the store monad *)

Inductive exn : Type :=
| DoesNotExist      (* Model.DoesNotExist, raised by objects.get *)
| IntegrityError    (* a unique or foreign-key constraint is violated *)
| ValueError.       (* save() with an unsaved related object *)

Inductive result (A : Type) : Type :=
| Ok (a : A)
| Raise (e : exn).
Arguments Ok {A} a.
Arguments Raise {A} e.

#[global] Instance exn_eq_dec : EqDecision exn.
Proof. solve_decision. Defined.

(** What the repository takes from Django without defining it. *)
Class Django := { slugify : string → string }.

(** ** Rows *)

Module Product.
(** [class Product(models.Model)], models.py lines 65-96. *)
Record t : Type := mk {
  pk : option positive;
  name : string;
  slug : string;
  description : string;
  category : positive;
  brand : positive;
  image : option string;
  sku : string;
  upc : string;
  mpn : string;
  lowest_price : option Z;
  highest_price : option Z;
  average_price : option Q;
  view_count : nat;
  created_at : Z;
  updated_at : Z
}.

Definition set_pk (v : option positive) (p : t) : t :=
  mk v (name p) (slug p) (description p) (category p) (brand p) (image p)
     (sku p) (upc p) (mpn p) (lowest_price p) (highest_price p)
     (average_price p) (view_count p) (created_at p) (updated_at p).

Definition set_slug (v : string) (p : t) : t :=
  mk (pk p) (name p) v (description p) (category p) (brand p) (image p)
     (sku p) (upc p) (mpn p) (lowest_price p) (highest_price p)
     (average_price p) (view_count p) (created_at p) (updated_at p).

(** The three assignments of [update_price_stats], lines 112-114. *)
Definition set_stats (lo hi : option Z) (avg : option Q) (p : t) : t :=
  mk (pk p) (name p) (slug p) (description p) (category p) (brand p)
     (image p) (sku p) (upc p) (mpn p) lo hi avg (view_count p)
     (created_at p) (updated_at p).

Definition set_created_at (v : Z) (p : t) : t :=
  mk (pk p) (name p) (slug p) (description p) (category p) (brand p)
     (image p) (sku p) (upc p) (mpn p) (lowest_price p) (highest_price p)
     (average_price p) (view_count p) v (updated_at p).

Definition set_updated_at (v : Z) (p : t) : t :=
  mk (pk p) (name p) (slug p) (description p) (category p) (brand p)
     (image p) (sku p) (upc p) (mpn p) (lowest_price p) (highest_price p)
     (average_price p) (view_count p) (created_at p) v.

(** The cached statistics of a product, as one value. *)
Definition stats (p : t) : option Z * option Z * option Q :=
  (lowest_price p, highest_price p, average_price p).
End Product.

Module RetailerProductPrice.
(** [class RetailerProductPrice(models.Model)], models.py lines 191-230.
    The record is shared by the Python object, whose [product] attribute
    is a [Product] object ([obj]), and by the table row, whose [product]
    column is the product's primary key ([row]). *)
Record t {P : Type} : Type := mk {
  pk : option positive;
  product : P;
  retailer : option positive;
  small_retailer : option positive;
  price : Z;
  currency : string;
  shipping_cost : Z;
  is_free_shipping : bool;
  product_url : string;
  is_available : bool;
  stock_status : string;
  previous_price : option Z;
  price_updated_at : Z;
  last_checked : Z
}.
Arguments t : clear implicits.
Arguments mk {P}.

Definition obj : Type := t Product.t.
Definition row : Type := t positive.

Definition set_pk {P} (v : option positive) (o : t P) : t P :=
  mk v (product o) (retailer o) (small_retailer o) (price o) (currency o)
     (shipping_cost o) (is_free_shipping o) (product_url o)
     (is_available o) (stock_status o) (previous_price o)
     (price_updated_at o) (last_checked o).

Definition set_product {P P'} (v : P') (o : t P) : t P' :=
  mk (pk o) v (retailer o) (small_retailer o) (price o) (currency o)
     (shipping_cost o) (is_free_shipping o) (product_url o)
     (is_available o) (stock_status o) (previous_price o)
     (price_updated_at o) (last_checked o).

Definition set_previous_price {P} (v : option Z) (o : t P) : t P :=
  mk (pk o) (product o) (retailer o) (small_retailer o) (price o)
     (currency o) (shipping_cost o) (is_free_shipping o) (product_url o)
     (is_available o) (stock_status o) v (price_updated_at o)
     (last_checked o).

(** Both [auto_now=True] columns, lines 219 and 222. *)
Definition touch {P} (now : Z) (o : t P) : t P :=
  mk (pk o) (product o) (retailer o) (small_retailer o) (price o)
     (currency o) (shipping_cost o) (is_free_shipping o) (product_url o)
     (is_available o) (stock_status o) (previous_price o) now now.

Definition set_price {P} (v : Z) (o : t P) : t P :=
  mk (pk o) (product o) (retailer o) (small_retailer o) v (currency o)
     (shipping_cost o) (is_free_shipping o) (product_url o)
     (is_available o) (stock_status o) (previous_price o)
     (price_updated_at o) (last_checked o).

Definition set_is_available {P} (v : bool) (o : t P) : t P :=
  mk (pk o) (product o) (retailer o) (small_retailer o) (price o)
     (currency o) (shipping_cost o) (is_free_shipping o) (product_url o)
     v (stock_status o) (previous_price o) (price_updated_at o)
     (last_checked o).

Definition set_currency {P} (v : string) (o : t P) : t P :=
  mk (pk o) (product o) (retailer o) (small_retailer o) (price o) v
     (shipping_cost o) (is_free_shipping o) (product_url o)
     (is_available o) (stock_status o) (previous_price o)
     (price_updated_at o) (last_checked o).


(** [unique_together], lines 225-228.  Two rows collide when they name
    the same product and the same retailer, or the same product and the
    same small retailer; as in SQL, a null column never collides. *)
Definition collides (a b : row) : bool :=
  bool_decide (product a = product b) &&
  (match retailer a, retailer b with
   | Some x, Some y => bool_decide (x = y)
   | _, _ => false
   end ||
   match small_retailer a, small_retailer b with
   | Some x, Some y => bool_decide (x = y)
   | _, _ => false
   end).
End RetailerProductPrice.

Module PriceHistory.
(** [class PriceHistory(models.Model)], models.py lines 249-264. *)
Record t : Type := mk {
  pk : option positive;
  product : positive;
  retailer : option positive;
  small_retailer : option positive;
  price : Z;
  currency : string;
  timestamp : Z
}.
End PriceHistory.

Module ScraperConfig.
(** [class ScraperConfig(models.Model)], scrapers/models.py lines 10-67:
    the columns the tasks read, and the two the engine is to update. *)
Record t : Type := mk {
  retailer : positive;
  name : string;
  slug : string;
  max_retries : nat;
  rotate_user_agents : bool;
  use_proxy : bool;
  is_active : bool;
  last_run_status : string;
  last_run_time : option Z
}.
End ScraperConfig.

Module ScraperRun.
(** [STATUS_CHOICES], scrapers/models.py lines 82-86. *)
Inductive status : Type := success | partial | failed.

(** [class ScraperRun(models.Model)], scrapers/models.py lines 79-101. *)
Record t : Type := mk {
  pk : option positive;
  scraper_config : positive;
  start_time : Z;
  end_time : option Z;
  status_ : status;
  products_scraped : nat;
  new_prices_found : nat;
  updated_prices : nat;
  errors : string
}.

Definition set_pk (v : option positive) (r : t) : t :=
  mk v (scraper_config r) (start_time r) (end_time r) (status_ r)
     (products_scraped r) (new_prices_found r) (updated_prices r)
     (errors r).


End ScraperRun.

(** ** The store *)

Record Store : Type := mkStore {
  products : gmap positive Product.t;
  retailer_prices : gmap positive RetailerProductPrice.row;
  price_history : gmap positive PriceHistory.t;
  scraper_configs : gmap positive ScraperConfig.t;
  scraper_runs : gmap positive ScraperRun.t;
  log : list string              (* what [logger] has written *)
}.

Definition set_products (v : gmap positive Product.t) (db : Store) : Store :=
  mkStore v (retailer_prices db) (price_history db) (scraper_configs db)
          (scraper_runs db) (log db).

Definition set_retailer_prices (v : gmap positive RetailerProductPrice.row)
    (db : Store) : Store :=
  mkStore (products db) v (price_history db) (scraper_configs db)
          (scraper_runs db) (log db).

Definition set_price_history (v : gmap positive PriceHistory.t) (db : Store)
    : Store :=
  mkStore (products db) (retailer_prices db) v (scraper_configs db)
          (scraper_runs db) (log db).


Definition set_log (v : list string) (db : Store) : Store :=
  mkStore (products db) (retailer_prices db) (price_history db)
          (scraper_configs db) (scraper_runs db) v.

Definition empty_store : Store := mkStore ∅ ∅ ∅ ∅ ∅ [].

(** A computation over the store that may raise. *)
Definition M (A : Type) : Type := Store → Store * result A.

#[global] Instance M_ret : MRet M := λ A a db, (db, Ok a).

#[global] Instance M_bind : MBind M := λ A B f m db,
  match m db with
  | (db', Ok a) => f a db'
  | (db', Raise e) => (db', Raise e)
  end.

Definition get_store : M Store := λ db, (db, Ok db).
Definition put_store (db' : Store) : M unit := λ _, (db', Ok tt).

(** [try: body except e: handler] *)
Definition try_except {A} (body : M A) (e : exn) (handler : M A) : M A :=
  λ db,
    match body db with
    | (db', Raise e') => if decide (e' = e) then handler db' else (db', Raise e')
    | r => r
    end.

(** [for x in xs: body(x)]: an exception leaves the loop. *)
Fixpoint for_each {A} (body : A → M unit) (xs : list A) : M unit :=
  match xs with
  | [] => mret tt
  | x :: xs' => _ ← body x; for_each body xs'
  end.

(** [logger.error(msg)] *)
Definition logger_error (msg : string) : M unit :=
  λ db, (set_log (log db ++ [msg]) db, Ok tt).

(** Unfolds the monad, to reason on the store-passing form. *)
Ltac unfold_M :=
  unfold mbind, mret, M_bind, M_ret, get_store, put_store, logger_error,
         try_except in *.

(** ** Python built-ins on the list a query returns *)

(** [min(prices)], [max(prices)] for the non-empty list [p :: ps]. *)
Definition py_min (p : Z) (ps : list Z) : Z := fold_left Z.min ps p.
Definition py_max (p : Z) (ps : list Z) : Z := fold_left Z.max ps p.

(** [sum(prices)]: starts from [0] and adds from the left. *)
Definition py_sum (prices : list Z) : Z := fold_left Z.add prices 0.

(** [timedelta(days=n)], in microseconds. *)
Definition timedelta_days (n : Z) : Z := n * 86400 * 1000000.

(** ** apps/products/models.py *)

Section products_models.
Context `{Django}.
Variable now : Z.

Import Product.

(** [models.Model.save] on the product table: an UPDATE of the row with
    the object's key when there is one, an INSERT otherwise.  [slug] is
    [unique=True] (line 69); [created_at] is [auto_now_add], [updated_at]
    is [auto_now] (lines 92-93).  The category and brand tables are not
    part of the store, so these two keys are taken as they come. *)
Definition Model_save_Product (self : Product.t) : M Product.t :=
  λ db,
    let key := default (fresh (dom (products db))) (pk self) in
    if bool_decide
         (map_Forall (λ j r, j = key ∨ slug r ≠ slug self) (products db))
    then
      let adding := bool_decide (products db !! key = None) in
      let self := set_pk (Some key) self in
      let self := if adding then set_created_at now self else self in
      let self := set_updated_at now self in
      (set_products (<[key := self]> (products db)) db, Ok self)
    else (db, Raise IntegrityError).

(** [Product.save], lines 101-105. *)
Definition Product_save (self : Product.t) : M Product.t :=
  let self :=
    if bool_decide (slug self = "")
    then set_slug (slugify (name self)) self
    else self in
  Model_save_Product self.

(** [self.retailer_prices.filter(is_available=True)
        .values_list('price', flat=True)], line 109.
    For an object without a primary key the related manager of the
    Django 3 series, which the imports of scrapers/models.py pin,
    returns the empty query. *)
Definition available_rows (k : positive) (db : Store)
    : list (positive * RetailerProductPrice.row) :=
  filter (λ kv, RetailerProductPrice.product kv.2 = k
                ∧ RetailerProductPrice.is_available kv.2 = true)
         (map_to_list (retailer_prices db)).

Definition available_prices (self : Product.t) (db : Store) : list Z :=
  match pk self with
  | None => []
  | Some k => (λ kv, RetailerProductPrice.price kv.2) <$> available_rows k db
  end.

(** [Product.update_price_stats], lines 107-115. *)
Definition Product_update_price_stats (self : Product.t) : M Product.t :=
  db ← get_store;
  match available_prices self db with
  | [] => mret self
  | p :: ps =>
      let prices := p :: ps in
      Product_save
        (set_stats
           (Some (py_min p ps))
           (Some (py_max p ps))
           (Some (inject_Z (py_sum prices)
                  / inject_Z (Z.of_nat (length prices)))%Q)
           self)
  end.

Import RetailerProductPrice.

(** [RetailerProductPrice.objects.get(pk=k)] *)
Definition RetailerProductPrice_objects_get (k : positive) : M row :=
  λ db,
    match retailer_prices db !! k with
    | Some r => (db, Ok r)
    | None => (db, Raise DoesNotExist)
    end.

(** [models.Model.save] on the observation table.  Django refuses an
    unsaved related object; the product key must name a product row;
    [unique_together] is checked against every other row; both
    [auto_now] columns are set. *)
Definition Model_save_RetailerProductPrice (self : obj) : M obj :=
  λ db,
    match Product.pk (product self) with
    | None => (db, Raise ValueError)
    | Some pid =>
        if bool_decide (products db !! pid = None)
        then (db, Raise IntegrityError)
        else
          let key := default (fresh (dom (retailer_prices db))) (pk self) in
          let self := touch now (set_pk (Some key) self) in
          let r : row := set_product pid self in
          if bool_decide
               (map_Forall (λ j r', j = key ∨ collides r' r = false)
                           (retailer_prices db))
          then (set_retailer_prices (<[key := r]> (retailer_prices db)) db,
                Ok self)
          else (db, Raise IntegrityError)
    end.

(** [RetailerProductPrice.save], lines 236-246. *)
Definition RetailerProductPrice_save (self : obj) : M obj :=
  self ← match pk self with
         | Some k =>
             old_instance ← RetailerProductPrice_objects_get k;
             if bool_decide (price old_instance ≠ price self)
             then mret (set_previous_price (Some (price old_instance)) self)
             else mret self
         | None => mret self
         end;
  self ← Model_save_RetailerProductPrice self;
  p ← Product_update_price_stats (product self);
  mret (set_product p self).

End products_models.

(** ** apps/products/tasks.py *)

Section products_tasks.
Context `{Django}.
Variable now : Z.

(** [update_product_prices], lines 7-12.  The loop evaluates the query
    once; [products.count()] then counts the rows already fetched. *)
Definition update_product_prices : M string :=
  db ← get_store;
  let products_ := (map_to_list (products db)).*2 in
  _ ← for_each (λ product,
                  _ ← Product_update_price_stats now product; mret tt)
               products_;
  mret ("Updated price statistics for "
        +:+ pretty (length products_) +:+ " products.").

(** [clean_old_price_data], lines 26-32. *)
Definition clean_old_price_data : M string :=
  let one_year_ago := now - timedelta_days 365 in
  db ← get_store;
  let old_records :=
    filter (λ kv, PriceHistory.timestamp kv.2 < one_year_ago)
           (price_history db) in
  let count := size old_records in
  _ ← put_store (set_price_history (price_history db ∖ old_records) db);
  mret ("Deleted " +:+ pretty count
        +:+ " price history records older than one year.").

End products_tasks.

(** ** apps/scrapers *)

(** [ScraperConfig.objects.get(id=config_id, is_active=True)] *)
Definition ScraperConfig_objects_get_active (config_id : positive)
    : M ScraperConfig.t :=
  λ db,
    match scraper_configs db !! config_id with
    | Some c =>
        if ScraperConfig.is_active c then (db, Ok c)
        else (db, Raise DoesNotExist)
    | None => (db, Raise DoesNotExist)
    end.

(** [run_scraper], scrapers/tasks.py lines 15-20: the whole body. *)
Definition run_scraper (config_id : positive) : M unit :=
  try_except
    (config ← ScraperConfig_objects_get_active config_id; mret tt)
    DoesNotExist
    (logger_error ("Scraper configuration with ID "
                   +:+ pretty (Npos config_id)
                   +:+ " not found or not active.")).


(** * Vocabulary of the statements

    Names for what the operations above write, and for the conditions
    under which the database accepts a write. *)

(** Tables an operation leaves alone. *)
Definition same_observations (db db' : Store) : Prop :=
  retailer_prices db' = retailer_prices db.
Definition same_history (db db' : Store) : Prop :=
  price_history db' = price_history db.
Definition same_scrapers (db db' : Store) : Prop :=
  scraper_configs db' = scraper_configs db
  ∧ scraper_runs db' = scraper_runs db.

(** The statistics [update_price_stats] assigns for the prices a query
    returned, and the cached statistics when there was nothing to assign. *)
Definition stats_of (prices : list Z) : option Z * option Z * option Q :=
  match prices with
  | [] => (None, None, None)
  | p :: ps =>
      (Some (py_min p ps), Some (py_max p ps),
       Some (inject_Z (py_sum prices) / inject_Z (Z.of_nat (length prices)))%Q)
  end.

(** Two product rows that differ at most in the three cached fields and
    in [updated_at]. *)
Definition same_but_stats (r r' : Product.t) : Prop :=
  Product.set_updated_at (Product.updated_at r)
    (Product.set_stats (Product.lowest_price r) (Product.highest_price r)
                       (Product.average_price r) r')
  = r.

(** Two stores that differ at most so, row by row of the product table. *)
Definition stats_only (db db' : Store) : Prop :=
  retailer_prices db' = retailer_prices db
  ∧ price_history db' = price_history db
  ∧ scraper_configs db' = scraper_configs db
  ∧ scraper_runs db' = scraper_runs db
  ∧ log db' = log db
  ∧ ∀ k, match products db !! k with
         | Some r => ∃ r', products db' !! k = Some r' ∧ same_but_stats r r'
         | None => products db' !! k = None
         end.

(** Every stored product carries its key, and a slug as [Product.save]
    leaves it. *)
Definition settled `{Django} (db : Store) : Prop :=
  ∀ k r, products db !! k = Some r →
         Product.pk r = Some k
         ∧ (Product.slug r = "" → slugify (Product.name r) = "").

(** The prices the query of line 109 picks from a list of rows. *)
Definition select_prices (k : positive)
    (rows : list (positive * RetailerProductPrice.row)) : list Z :=
  (λ kv, RetailerProductPrice.price kv.2)
    <$> filter (λ kv, RetailerProductPrice.product kv.2 = k
                      ∧ RetailerProductPrice.is_available kv.2 = true) rows.

(** Following the spec's words (4.2, step 4): "round to 2 decimal places
    using round-half-up".  On a number of hundredths this is the nearest
    integer, a half going up. *)
Definition round_half_up (q : Q) : Z := Qfloor (q + (1 # 2)).

Section vocabulary.
Context `{Django}.
Variable now : Z.

Import Product.

(** The slug [Product.save] writes, the key it writes at, and the row. *)
Definition saved_slug (self : Product.t) : string :=
  if bool_decide (slug self = "") then slugify (name self) else slug self.

Definition product_key (self : Product.t) (db : Store) : positive :=
  default (fresh (dom (products db))) (pk self).

Definition Product_stored (self : Product.t) (db : Store) : Product.t :=
  let key := product_key self db in
  let self := set_slug (saved_slug self) self in
  let self := set_pk (Some key) self in
  let self :=
    if bool_decide (products db !! key = None)
    then set_created_at now self else self in
  set_updated_at now self.

(** No other product row carries the slug about to be written. *)
Definition slug_free (self : Product.t) (db : Store) : Prop :=
  map_Forall (λ j r, j = product_key self db ∨ slug r ≠ saved_slug self)
             (products db).

#[global] Instance slug_free_dec self db : Decision (slug_free self db).
Proof. unfold slug_free. apply _. Defined.

(** The object after the three assignments of lines 112-114. *)
Definition recomputed (self : Product.t) (p : Z) (ps : list Z) : Product.t :=
  set_stats (Some (py_min p ps)) (Some (py_max p ps))
            (Some (inject_Z (py_sum (p :: ps))
                   / inject_Z (Z.of_nat (length (p :: ps))))%Q)
            self.

Import RetailerProductPrice.

(** The object after the comparison of lines 238-241. *)
Definition compared (self : obj) (db : Store) : obj :=
  match pk self with
  | Some k =>
      match retailer_prices db !! k with
      | Some old_instance =>
          if bool_decide (price old_instance ≠ price self)
          then set_previous_price (Some (price old_instance)) self
          else self
      | None => self
      end
  | None => self
  end.

(** The key [models.Model.save] writes the observation at, the object
    it leaves, and the row it writes. *)
Definition price_key (self : obj) (db : Store) : positive :=
  default (fresh (dom (retailer_prices db))) (pk self).

Definition price_stored (self : obj) (db : Store) : obj :=
  touch now (set_pk (Some (price_key self db)) self).

Definition price_row (self : obj) (pid : positive) (db : Store) : row :=
  set_product pid (price_stored self db).

(** No other observation row collides with the one about to be written. *)
Definition unique_free (self : obj) (pid : positive) (db : Store) : Prop :=
  map_Forall (λ j r', j = price_key self db
                      ∨ collides r' (price_row self pid db) = false)
             (retailer_prices db).

#[global] Instance unique_free_dec self pid db :
  Decision (unique_free self pid db).
Proof. unfold unique_free. apply _. Defined.

(** The object names an existing row, or no row yet. *)
Definition row_known (self : obj) (db : Store) : Prop :=
  ∀ k, pk self = Some k → is_Some (retailer_prices db !! k).

(** The two steps of [RetailerProductPrice.save] after the comparison. *)
Definition save_tail (self : obj) : M obj :=
  self ← Model_save_RetailerProductPrice now self;
  p ← Product_update_price_stats now (product self);
  mret (set_product p self).

(** The conditions under which the database takes the two writes of
    [RetailerProductPrice.save]: the object names an existing row or none,
    its product is a stored row, no other observation collides with it,
    and no other product carries the product's slug. *)
Definition save_accepted (self : obj) (db : Store) : Prop :=
  row_known self db
  ∧ ∃ pid, Product.pk (product self) = Some pid
           ∧ is_Some (products db !! pid)
           ∧ unique_free (compared self db) pid db
           ∧ slug_free (product self) db.

End vocabulary.

(** * A concrete setting

    [slugify] restricted to ASCII text, as Django 3 defines it: lower the
    case, drop what is neither a word character, white space nor a
    hyphen, turn each run of white space and hyphens into one hyphen,
    and strip hyphens and underscores from both ends. *)

Definition ascii_lower (a : ascii) : ascii :=
  let n := nat_of_ascii a in
  if (65 <=? n)%nat && (n <=? 90)%nat then ascii_of_nat (n + 32) else a.

Definition is_word (a : ascii) : bool :=
  let n := nat_of_ascii a in
  ((48 <=? n)%nat && (n <=? 57)%nat) || ((65 <=? n)%nat && (n <=? 90)%nat)
  || ((97 <=? n)%nat && (n <=? 122)%nat) || (n =? 95)%nat.

Definition is_space (a : ascii) : bool :=
  let n := nat_of_ascii a in
  ((9 <=? n)%nat && (n <=? 13)%nat) || ((28 <=? n)%nat && (n <=? 32)%nat).

Definition is_hyphen (a : ascii) : bool := (nat_of_ascii a =? 45)%nat.

Fixpoint hyphenate (in_run : bool) (l : list ascii) : list ascii :=
  match l with
  | [] => []
  | a :: l' =>
      if is_space a || is_hyphen a
      then if in_run then hyphenate true l'
           else ascii_of_nat 45 :: hyphenate true l'
      else a :: hyphenate false l'
  end.

Fixpoint lstrip (l : list ascii) : list ascii :=
  match l with
  | a :: l' =>
      if is_hyphen a || (nat_of_ascii a =? 95)%nat then lstrip l' else l
  | [] => []
  end.

Definition ascii_slugify (value : string) : string :=
  let value := ascii_lower <$> String.list_ascii_of_string value in
  let value := filter (λ a, is_word a || is_space a || is_hyphen a) value in
  let value := hyphenate false value in
  String.string_of_list_ascii (reverse (lstrip (reverse (lstrip value)))).

Definition django : Django := {| slugify := ascii_slugify |}.

(** A product, two retailers' observations of it, and a store that holds
    the product only. *)
Definition widget : Product.t :=
  Product.mk None "Blue Widget" "" "" 1 1 None "" "" "" None None None 0 0 0.

Definition observation (product : Product.t) (retailer : option positive)
    (small_retailer : option positive) (price : Z) (currency : string)
    : RetailerProductPrice.obj :=
  RetailerProductPrice.mk None product retailer small_retailer price currency
    0 false "https://shop.example/widget" true "In Stock" None 0 0.

Definition catalog : Store :=
  Eval vm_compute in (@Product_save django 100 widget empty_store).1.

Definition stored_widget : Product.t :=
  Eval vm_compute in default widget (products catalog !! 1%positive).

(** The store after retailer 1 lists the widget at 10.00, the object that
    [save] returned, and the store after the same observation is saved
    again as unavailable. *)
Definition listed : Store * result RetailerProductPrice.obj :=
  Eval vm_compute in
    @RetailerProductPrice_save django 200
      (observation stored_widget (Some 1%positive) None 1000 "USD") catalog.

Definition shop : Store := listed.1.

Definition listing : RetailerProductPrice.obj :=
  match listed.2 with
  | Ok o => o
  | Raise _ => observation stored_widget (Some 1%positive) None 1000 "USD"
  end.

Definition delisted : Store * result RetailerProductPrice.obj :=
  Eval vm_compute in
    @RetailerProductPrice_save django 300
      (RetailerProductPrice.set_is_available false listing) shop.

(** The spec's example: retailer 2 lists the widget at 8.00 as well. *)
Definition listed_twice : Store * result RetailerProductPrice.obj :=
  Eval vm_compute in
    @RetailerProductPrice_save django 250
      (observation (RetailerProductPrice.product listing) (Some 2%positive)
                   None 800 "USD") shop.


(** Retailer 2 lists the widget at 20.00 in another currency. *)
Definition listed_abroad : Store * result RetailerProductPrice.obj :=
  Eval vm_compute in
    @RetailerProductPrice_save django 250
      (observation (RetailerProductPrice.product listing) (Some 2%positive)
                   None 2000 "EUR") shop.

(** Retailer 1 corrects its listing to 8.00. *)
Definition repriced : Store * result RetailerProductPrice.obj :=
  Eval vm_compute in
    @RetailerProductPrice_save django 300
      (RetailerProductPrice.set_price 800 listing) shop.

(** An observation that names no source, one that names two, and one
    with a negative price. *)
Definition sourceless : RetailerProductPrice.obj :=
  observation stored_widget None None 1000 "USD".

Definition two_sources : RetailerProductPrice.obj :=
  observation stored_widget (Some 1%positive) (Some 1%positive) 1000 "USD".


(** A history table with one entry two years old, one entry dated
    exactly 365 days ago and one entry of today ([now] is day 1000). *)
Definition day : Z := 86400 * 1000000.

Definition entry (days : Z) (price : Z) : PriceHistory.t :=
  PriceHistory.mk None 1%positive (Some 1%positive) None price "USD"
                  (days * day).

Definition archive : Store :=
  set_price_history
    (<[1%positive := entry 270 1200]>
       (<[2%positive := entry 635 1000]>
          (<[3%positive := entry 1000 800]> ∅)))
    catalog.

(** One active scraper configuration, and a run of it that has been
    finalized as successful. *)
Definition config : ScraperConfig.t :=
  ScraperConfig.mk 1%positive "Shop" "shop" 3%nat false false true "" None.

Definition scrapers : Store :=
  mkStore ∅ ∅ ∅ (<[1%positive := config]> ∅) ∅ [].



(** The widget as the store holds it once both retailers list it, and
    the archive after the sweep of day 1000. *)
Definition stocked_widget : Product.t :=
  Eval vm_compute in default widget (products listed_twice.1 !! 1%positive).

Definition swept_archive : Store :=
  Eval vm_compute in (clean_old_price_data (1000 * day) archive).1.

(** * More of the code *)

(** ** apps/products/tasks.py, continued *)

Definition Product_set_view_count (v : nat) (p : Product.t) : Product.t :=
  Product.mk (Product.pk p) (Product.name p) (Product.slug p)
    (Product.description p) (Product.category p) (Product.brand p)
    (Product.image p) (Product.sku p) (Product.upc p) (Product.mpn p)
    (Product.lowest_price p) (Product.highest_price p)
    (Product.average_price p) v (Product.created_at p)
    (Product.updated_at p).

(** [Product.objects.get(id=k)]: the object fetched carries the key of
    its row. *)
Definition Product_objects_get (k : positive) : M Product.t :=
  λ db,
    match products db !! k with
    | Some r => (db, Ok (Product.set_pk (Some k) r))
    | None => (db, Raise DoesNotExist)
    end.

Section products_tasks_more.
Context `{Django}.

(** [product.save(update_fields=['view_count'])]: [Product.save] (lines
    101-105) fills an empty slug on the object, then [models.Model.save]
    issues an UPDATE of the one column named, on the row with the
    object's key.  No [auto_now] column is written, since none is named
    in [update_fields].  Without a key Django raises [ValueError].  The
    task saves the row it has just fetched; on a key that names no row
    the UPDATE changes nothing, which is what [alter] does here, and
    Django then raises [DatabaseError]. *)
Definition Product_save_view_count (self : Product.t) : M Product.t :=
  let self :=
    if bool_decide (Product.slug self = "")
    then Product.set_slug (slugify (Product.name self)) self
    else self in
  λ db,
    match Product.pk self with
    | None => (db, Raise ValueError)
    | Some k =>
        (set_products
           (alter (Product_set_view_count (Product.view_count self)) k
                  (products db)) db,
         Ok self)
    end.

(** [increment_view_count], lines 15-23. *)
Definition increment_view_count (product_id : positive) : M string :=
  try_except
    (product ← Product_objects_get product_id;
     let product :=
       Product_set_view_count (Product.view_count product + 1) product in
     product ← Product_save_view_count product;
     mret ("Incremented view count for product "
           +:+ Product.name product +:+ "."))
    DoesNotExist
    (mret ("Product with ID " +:+ pretty (Npos product_id)
           +:+ " does not exist.")).

End products_tasks_more.

(** ** apps/products/views.py *)

(** [order_by('-timestamp')]: the later entry comes first. *)
Definition newer (a b : positive * PriceHistory.t) : Prop :=
  PriceHistory.timestamp b.2 ≤ PriceHistory.timestamp a.2.

#[global] Instance newer_dec a b : Decision (newer a b).
Proof. unfold newer. apply _. Defined.

(** [ProductPriceHistoryView.get_queryset], lines 125-127:
    [PriceHistory.objects.filter(product__slug=product_slug)
       .order_by('-timestamp')], the rows with their keys. *)
Definition ProductPriceHistoryView_get_queryset (product_slug : string)
    (db : Store) : list (positive * PriceHistory.t) :=
  merge_sort newer
    (filter (λ kv, Product.slug <$> products db !! PriceHistory.product kv.2
                   = Some product_slug)
            (map_to_list (price_history db))).

(** ** Naming the source of a price

    [obj.retailer] and [obj.small_retailer] are related objects; the
    foreign keys make every key that is set resolve, so the two tables
    are given by the names they hold. *)

(** What [RetailerProductPrice.__str__] returns or raises. *)
Inductive str_result : Type :=
| Str (s : string)
| AttributeError.

(** [str(d)] for a decimal with two places, given in hundredths. *)
Definition decimal_str (d : Z) : string :=
  (if bool_decide (d < 0) then "-" else "")
  +:+ pretty (Z.abs d / 100) +:+ "."
  +:+ pretty (Z.abs d `mod` 100 / 10) +:+ pretty (Z.abs d `mod` 10).

Section source_names.
Variable retailer_name : positive → string.      (* Retailer.name *)
Variable business_name : positive → string.      (* RetailerProfile.business_name *)

(** [PriceHistorySerializer.get_retailer_name], serializers.py lines
    56-61. *)
Definition PriceHistorySerializer_get_retailer_name (obj : PriceHistory.t)
    : option string :=
  match PriceHistory.retailer obj with
  | Some r => Some (retailer_name r)
  | None =>
      match PriceHistory.small_retailer obj with
      | Some s => Some (business_name s)
      | None => None
      end
  end.

(** [PriceHistoryAdmin.get_retailer_name], admin.py lines 67-72. *)
Definition PriceHistoryAdmin_get_retailer_name (obj : PriceHistory.t)
    : string :=
  match PriceHistory.retailer obj with
  | Some r => retailer_name r
  | None =>
      match PriceHistory.small_retailer obj with
      | Some s => business_name s
      | None => "Unknown"
      end
  end.

(** [RetailerProductPriceAdmin.get_retailer_name], admin.py lines 53-58. *)
Definition RetailerProductPriceAdmin_get_retailer_name {P}
    (obj : RetailerProductPrice.t P) : string :=
  match RetailerProductPrice.retailer obj with
  | Some r => retailer_name r
  | None =>
      match RetailerProductPrice.small_retailer obj with
      | Some s => business_name s
      | None => "Unknown"
      end
  end.

(** [RetailerProductPrice.__str__], models.py lines 232-234.  With no
    retailer, [self.small_retailer.business_name] is evaluated, and
    fails on [None]. *)
Definition RetailerProductPrice_str (self : RetailerProductPrice.obj)
    : str_result :=
  match
    match RetailerProductPrice.retailer self with
    | Some r => Some (retailer_name r)
    | None =>
        match RetailerProductPrice.small_retailer self with
        | Some s => Some (business_name s)
        | None => None
        end
    end
  with
  | Some retailer_name_ =>
      Str (Product.name (RetailerProductPrice.product self) +:+ " - "
           +:+ retailer_name_ +:+ ": "
           +:+ decimal_str (RetailerProductPrice.price self) +:+ " "
           +:+ RetailerProductPrice.currency self)
  | None => AttributeError
  end.

End source_names.

(** ** apps/scrapers/models.py, continued *)

Definition set_scraper_configs (v : gmap positive ScraperConfig.t)
    (db : Store) : Store :=
  mkStore (products db) (retailer_prices db) (price_history db) v
          (scraper_runs db) (log db).

Definition ScraperConfig_set_slug (v : string) (c : ScraperConfig.t)
    : ScraperConfig.t :=
  ScraperConfig.mk (ScraperConfig.retailer c) (ScraperConfig.name c) v
    (ScraperConfig.max_retries c) (ScraperConfig.rotate_user_agents c)
    (ScraperConfig.use_proxy c) (ScraperConfig.is_active c)
    (ScraperConfig.last_run_status c) (ScraperConfig.last_run_time c).

Section scrapers_models_more.
Context `{Django}.

(** [ScraperConfig.save], lines 72-76, on an object with key [pk]: the
    slug is filled when empty, then [models.Model.save] writes the row.
    [slug] is [unique=True] (line 21) and [retailer] is one-to-one
    (line 19), so no other row may carry either.  The key comes back
    with the object. *)
Definition ScraperConfig_save (pk : option positive) (self : ScraperConfig.t)
    : M (positive * ScraperConfig.t) :=
  let self :=
    if bool_decide (ScraperConfig.slug self = "")
    then ScraperConfig_set_slug (slugify (ScraperConfig.name self)) self
    else self in
  λ db,
    let key := default (fresh (dom (scraper_configs db))) pk in
    if bool_decide
         (map_Forall
            (λ j c, j = key
                    ∨ (ScraperConfig.slug c ≠ ScraperConfig.slug self
                       ∧ ScraperConfig.retailer c ≠ ScraperConfig.retailer self))
            (scraper_configs db))
    then (set_scraper_configs (<[key := self]> (scraper_configs db)) db,
          Ok (key, self))
    else (db, Raise IntegrityError).

End scrapers_models_more.

(** ** apps/accounts: saved products and search history

    The two tables of accounts/models.py (lines 132-164) that the views
    below read and write, beside the product table of the store. *)

Module SavedProduct.
Record t : Type := mk {
  user : positive;
  product : positive;
  created_at : Z
}.
End SavedProduct.

Module SearchHistory.
Record t : Type := mk {
  user : positive;
  query : string;
  product_clicked : option positive;
  created_at : Z
}.
End SearchHistory.

Record Accounts : Type := mkAccounts {
  saved_products : gmap positive SavedProduct.t;
  search_history : gmap positive SearchHistory.t
}.

(** What [SavedProductToggleView.post] answers or raises. *)
Inductive toggle_response : Type :=
| Http404                                  (* get_object_or_404 *)
| MultipleObjectsReturned                  (* get_or_create found several rows *)
| Response_200 (detail : string)
| Response_201 (data : positive * SavedProduct.t).

(** [SavedProduct.objects.filter(user=user, product=product)], the rows
    with their keys. *)
Definition saved_rows (user product : positive) (acc : Accounts)
    : list (positive * SavedProduct.t) :=
  filter (λ kv, SavedProduct.user kv.2 = user
                ∧ SavedProduct.product kv.2 = product)
         (map_to_list (saved_products acc)).

(** [SavedProductToggleView.post], accounts/views.py lines 63-78, for the
    authenticated user [user].  [get_or_create] fetches the row of the
    pair, creates it when there is none, and raises when there are
    several. *)
Definition SavedProductToggleView_post (now : Z) (user product_id : positive)
    (db : Store) (acc : Accounts) : Accounts * toggle_response :=
  match products db !! product_id with
  | None => (acc, Http404)
  | Some _ =>
      match saved_rows user product_id acc with
      | [] =>
          let key := fresh (dom (saved_products acc)) in
          let saved_product := SavedProduct.mk user product_id now in
          (mkAccounts (<[key := saved_product]> (saved_products acc))
                      (search_history acc),
           Response_201 (key, saved_product))
      | [(key, _)] =>
          (mkAccounts (delete key (saved_products acc)) (search_history acc),
           Response_200 "Product unsaved successfully.")
      | _ => (acc, MultipleObjectsReturned)
      end
  end.

(** [ordering = ['-created_at']], accounts/models.py line 161. *)
Definition later (a b : positive * SearchHistory.t) : Prop :=
  SearchHistory.created_at b.2 ≤ SearchHistory.created_at a.2.

#[global] Instance later_dec a b : Decision (later a b).
Proof. unfold later. apply _. Defined.

(** [SearchHistoryListView.get_queryset], lines 85-86. *)
Definition SearchHistoryListView_get_queryset (user : positive)
    (acc : Accounts) : list (positive * SearchHistory.t) :=
  merge_sort later
    (filter (λ kv, SearchHistory.user kv.2 = user)
            (map_to_list (search_history acc))).

(** [SearchHistoryClearView.delete], lines 98-100: the store after it,
    and the status and detail of the response. *)
Definition SearchHistoryClearView_delete (user : positive) (acc : Accounts)
    : Accounts * (nat * string) :=
  (mkAccounts (saved_products acc)
              (filter (λ kv, SearchHistory.user kv.2 ≠ user)
                      (search_history acc)),
   (204%nat, "Search history cleared.")).

(** ** Consistency of the store

    What the constraints declared in models.py amount to on the two
    tables the engine writes: [slug] is unique among products (line 69),
    an observation names a stored product (line 194), and no two
    observations collide on [unique_together] (lines 225-228). *)

Definition slugs_unique (db : Store) : Prop :=
  ∀ j k r r',
    products db !! j = Some r → products db !! k = Some r' →
    Product.slug r = Product.slug r' → j = k.

Definition observations_sound (db : Store) : Prop :=
  ∀ j r,
    retailer_prices db !! j = Some r →
    RetailerProductPrice.pk r = Some j
    ∧ is_Some (products db !! RetailerProductPrice.product r).

Definition observations_unique (db : Store) : Prop :=
  ∀ j k r r',
    retailer_prices db !! j = Some r → retailer_prices db !! k = Some r' →
    RetailerProductPrice.collides r r' = true → j = k.

Definition consistent `{Django} (db : Store) : Prop :=
  settled db ∧ slugs_unique db ∧ observations_sound db
  ∧ observations_unique db.

(** The slug [ScraperConfig.save] writes, and the condition under which
    the database takes the row: no other configuration carries the slug
    or the retailer. *)
Definition saved_config_slug `{Django} (self : ScraperConfig.t) : string :=
  if bool_decide (ScraperConfig.slug self = "")
  then slugify (ScraperConfig.name self) else ScraperConfig.slug self.

Definition config_free `{Django} (pk : option positive)
    (self : ScraperConfig.t) (db : Store) : Prop :=
  map_Forall
    (λ j c, j = default (fresh (dom (scraper_configs db))) pk
            ∨ (ScraperConfig.slug c ≠ saved_config_slug self
               ∧ ScraperConfig.retailer c ≠ ScraperConfig.retailer self))
    (scraper_configs db).

#[global] Instance config_free_dec `{Django} pk self db :
  Decision (config_free pk self db).
Proof. unfold config_free. apply _. Defined.

(** A pair of user and product is saved; [unique_together] of
    accounts/models.py line 141. *)
Definition is_saved (user product : positive) (acc : Accounts) : Prop :=
  ∃ k r, saved_products acc !! k = Some r
         ∧ SavedProduct.user r = user ∧ SavedProduct.product r = product.

Definition saved_unique (acc : Accounts) : Prop :=
  ∀ j k r r',
    saved_products acc !! j = Some r → saved_products acc !! k = Some r' →
    SavedProduct.user r = SavedProduct.user r' →
    SavedProduct.product r = SavedProduct.product r' → j = k.

(** The statistics a recomputation leaves for a row: those of its
    available prices, or the ones it had when it has none. *)
Definition reconciled_stats (r : Product.t) (db : Store)
    : option Z * option Z * option Q :=
  match available_prices r db with
  | [] => Product.stats r
  | prices => stats_of prices
  end.

(** One save or one task, with any argument, whether it returns or
    raises; and the stores they lead to from the empty one. *)
Inductive step `{Django} : Store → Store → Prop :=
| step_Product_save now self db :
    step db (Product_save now self db).1
| step_update_price_stats now self db :
    step db (Product_update_price_stats now self db).1
| step_RetailerProductPrice_save now self db :
    step db (RetailerProductPrice_save now self db).1
| step_update_product_prices now db :
    step db (update_product_prices now db).1
| step_increment_view_count product_id db :
    step db (increment_view_count product_id db).1
| step_clean_old_price_data now db :
    step db (clean_old_price_data now db).1
| step_ScraperConfig_save pk self db :
    step db (ScraperConfig_save pk self db).1
| step_run_scraper config_id db :
    step db (run_scraper config_id db).1.

Definition reachable `{Django} (db : Store) : Prop := rtc step empty_store db.

(** ** More of the concrete setting *)

(** The two listings of the widget, saved in the other order. *)
Definition listed_reversed : Store :=
  Eval vm_compute in
    (@RetailerProductPrice_save django 250
       (observation stored_widget (Some 1%positive) None 1000 "USD")
       (@RetailerProductPrice_save django 200
          (observation stored_widget (Some 2%positive) None 800 "USD")
          catalog).1).1.

(** Observations that [save] refuses: one with a key that names no row,
    one of a product that was never saved, one of a product whose key
    names no row, and a second listing by retailer 1. *)
Definition unknown_row : RetailerProductPrice.obj :=
  RetailerProductPrice.set_pk (Some 7%positive)
    (observation stored_widget (Some 1%positive) None 1000 "USD").

Definition of_unsaved_product : RetailerProductPrice.obj :=
  observation widget (Some 1%positive) None 1000 "USD".

Definition of_missing_product : RetailerProductPrice.obj :=
  observation (Product.set_pk (Some 9%positive) widget) (Some 1%positive)
              None 1000 "USD".

Definition listed_again : RetailerProductPrice.obj :=
  observation stored_widget (Some 1%positive) None 900 "USD".

(** A configuration that is switched off, and no accounts data. *)
Definition idle_config : ScraperConfig.t :=
  ScraperConfig.mk 1%positive "Idle Shop" "" 3%nat false false false "" None.

Definition no_accounts : Accounts := mkAccounts ∅ ∅.

(** * Properties *)

(** ** The built-ins *)

Section builtins.
Implicit Types (p x : Z) (ps l : list Z).

Lemma py_min_cons p x ps : py_min p (x :: ps) = py_min (Z.min p x) ps.
Proof. reflexivity. Qed.

Lemma py_max_cons p x ps : py_max p (x :: ps) = py_max (Z.max p x) ps.
Proof. reflexivity. Qed.

Lemma py_min_elem p ps : py_min p ps ∈ p :: ps.
Proof.
  revert p; induction ps as [|x ps IH]; intros p.
  - apply list_elem_of_here.
  - rewrite py_min_cons.
    pose proof (IH (Z.min p x)) as Hin.
    apply elem_of_cons in Hin as [Hhd|Htl].
    + rewrite Hhd.
      destruct (Z.min_spec p x) as [[_ ->]|[_ ->]];
        [apply list_elem_of_here|apply list_elem_of_further, list_elem_of_here].
    + do 2 apply list_elem_of_further. exact Htl.
Qed.

Lemma py_min_le p ps x : x ∈ p :: ps → py_min p ps ≤ x.
Proof.
  revert p x; induction ps as [|y ps IH]; intros p x Hx.
  - apply list_elem_of_singleton in Hx as ->. reflexivity.
  - rewrite py_min_cons.
    assert (Hhd : py_min (Z.min p y) ps ≤ Z.min p y)
      by (apply IH, list_elem_of_here).
    apply elem_of_cons in Hx as [->|Hx]; [lia|].
    apply elem_of_cons in Hx as [->|Hx]; [lia|].
    apply IH, list_elem_of_further, Hx.
Qed.

Lemma py_max_elem p ps : py_max p ps ∈ p :: ps.
Proof.
  revert p; induction ps as [|x ps IH]; intros p.
  - apply list_elem_of_here.
  - rewrite py_max_cons.
    pose proof (IH (Z.max p x)) as Hin.
    apply elem_of_cons in Hin as [Hhd|Htl].
    + rewrite Hhd.
      destruct (Z.max_spec p x) as [[_ ->]|[_ ->]];
        [apply list_elem_of_further, list_elem_of_here|apply list_elem_of_here].
    + do 2 apply list_elem_of_further. exact Htl.
Qed.

Lemma py_max_ge p ps x : x ∈ p :: ps → x ≤ py_max p ps.
Proof.
  revert p x; induction ps as [|y ps IH]; intros p x Hx.
  - apply list_elem_of_singleton in Hx as ->. reflexivity.
  - rewrite py_max_cons.
    assert (Hhd : Z.max p y ≤ py_max (Z.max p y) ps)
      by (apply IH, list_elem_of_here).
    apply elem_of_cons in Hx as [->|Hx]; [lia|].
    apply elem_of_cons in Hx as [->|Hx]; [lia|].
    apply IH, list_elem_of_further, Hx.
Qed.

Lemma fold_left_add_shift l a : fold_left Z.add l a = a + py_sum l.
Proof.
  unfold py_sum. revert a; induction l as [|x l IH]; intros a; cbn.
  - lia.
  - rewrite (IH (a + x)), (IH (0 + x)). lia.
Qed.

Lemma py_sum_cons x l : py_sum (x :: l) = x + py_sum l.
Proof. unfold py_sum at 1. cbn. apply fold_left_add_shift. Qed.

Lemma py_sum_lower lo l :
  (∀ x, x ∈ l → lo ≤ x) → Z.of_nat (length l) * lo ≤ py_sum l.
Proof.
  induction l as [|y l IH]; intros Hlo; [reflexivity|].
  rewrite py_sum_cons.
  assert (lo ≤ y) by (apply Hlo; set_solver).
  assert (Z.of_nat (length l) * lo ≤ py_sum l)
    by (apply IH; intros; apply Hlo; set_solver).
  cbn [length]. lia.
Qed.

Lemma py_sum_upper hi l :
  (∀ x, x ∈ l → x ≤ hi) → py_sum l ≤ Z.of_nat (length l) * hi.
Proof.
  induction l as [|y l IH]; intros Hhi; [reflexivity|].
  rewrite py_sum_cons.
  assert (y ≤ hi) by (apply Hhi; set_solver).
  assert (py_sum l ≤ Z.of_nat (length l) * hi)
    by (apply IH; intros; apply Hhi; set_solver).
  cbn [length]. lia.
Qed.

(** None of the three depends on the order in which the query returns
    its rows. *)
Lemma py_sum_perm l l' : l ≡ₚ l' → py_sum l = py_sum l'.
Proof.
  induction 1 as [|x l l' _ IH|x y l|l l' l'' _ IH1 _ IH2].
  - reflexivity.
  - rewrite !py_sum_cons, IH. reflexivity.
  - rewrite !py_sum_cons. lia.
  - congruence.
Qed.

Lemma py_min_perm p ps q qs : p :: ps ≡ₚ q :: qs → py_min p ps = py_min q qs.
Proof.
  intros Hperm. apply Z.le_antisymm.
  - apply py_min_le. rewrite Hperm. apply py_min_elem.
  - apply py_min_le. rewrite <- Hperm. apply py_min_elem.
Qed.

Lemma py_max_perm p ps q qs : p :: ps ≡ₚ q :: qs → py_max p ps = py_max q qs.
Proof.
  intros Hperm. apply Z.le_antisymm.
  - apply py_max_ge. rewrite <- Hperm. apply py_max_elem.
  - apply py_max_ge. rewrite Hperm. apply py_max_elem.
Qed.

(** The mean of a non-empty list lies between its least and its
    greatest element. *)
Lemma mean_between (lo hi s : Z) (n : nat) :
  (0 < n)%nat → Z.of_nat n * lo ≤ s → s ≤ Z.of_nat n * hi →
  (inject_Z lo <= inject_Z s / inject_Z (Z.of_nat n)
   ∧ inject_Z s / inject_Z (Z.of_nat n) <= inject_Z hi)%Q.
Proof.
  intros Hn Hlo Hhi.
  assert (Hpos : (0 < inject_Z (Z.of_nat n))%Q).
  { change 0%Q with (inject_Z 0). rewrite <- Zlt_Qlt. lia. }
  split.
  - apply Qle_shift_div_l; [exact Hpos|].
    rewrite <- inject_Z_mult, <- Zle_Qle. lia.
  - apply Qle_shift_div_r; [exact Hpos|].
    rewrite <- inject_Z_mult, <- Zle_Qle. lia.
Qed.

End builtins.

(** ** Rounding on write *)

Section rounding.
(** Whatever rounding a two-decimal column applies when the average is
    written, the order of the three cached fields survives it, provided
    the rounding is monotone and leaves whole numbers of hundredths
    alone.  Rounding half up is such a rounding. *)
Lemma rounding_keeps_order (column : Q → Q) (lo hi : Z) (avg : Q) :
  (∀ a b, (a <= b)%Q → (column a <= column b)%Q) →
  (∀ z, (column (inject_Z z) == inject_Z z)%Q) →
  (inject_Z lo <= avg)%Q → (avg <= inject_Z hi)%Q →
  (inject_Z lo <= column avg)%Q ∧ (column avg <= inject_Z hi)%Q.
Proof.
  intros Hmono Hfix Hlo Hhi. split.
  - rewrite <- (Hfix lo). by apply Hmono.
  - rewrite <- (Hfix hi). by apply Hmono.
Qed.

Lemma round_half_up_keeps_order (lo hi : Z) (avg : Q) :
  (inject_Z lo <= avg)%Q → (avg <= inject_Z hi)%Q →
  lo ≤ round_half_up avg ≤ hi.
Proof.
  intros Hlo Hhi. unfold round_half_up. split.
  - rewrite <- (Qfloor_Z lo). apply Qfloor_resp_le.
    apply Qle_trans with avg; [exact Hlo|].
    rewrite <- (Qplus_0_r avg) at 1. by apply Qplus_le_r.
  - apply Z.lt_succ_r. rewrite Zlt_Qlt.
    apply Qle_lt_trans with (avg + (1 # 2))%Q; [apply Qfloor_le|].
    apply Qle_lt_trans with (inject_Z hi + (1 # 2))%Q;
      [by apply Qplus_le_l|].
    unfold Z.succ. rewrite inject_Z_plus. by apply Qplus_lt_r.
Qed.
End rounding.

(** ** Saving a product *)

Section product_save.
Context `{Django}.
Variable now : Z.
Import Product.

Lemma set_slug_saved self :
  (if bool_decide (slug self = "")
   then set_slug (slugify (name self)) self else self)
  = set_slug (saved_slug self) self.
Proof.
  unfold saved_slug. case_bool_decide; [reflexivity|]. by destruct self.
Qed.

Lemma Product_save_ok self db :
  slug_free self db →
  Product_save now self db
  = (set_products (<[product_key self db := Product_stored now self db]>
                     (products db)) db,
     Ok (Product_stored now self db)).
Proof.
  intros Hfree. unfold Product_save. rewrite set_slug_saved.
  unfold Model_save_Product. cbn.
  rewrite bool_decide_eq_true_2 by exact Hfree.
  reflexivity.
Qed.

Lemma Product_save_raises self db :
  ¬ slug_free self db →
  Product_save now self db = (db, Raise IntegrityError).
Proof.
  intros Hfree. unfold Product_save. rewrite set_slug_saved.
  unfold Model_save_Product. cbn.
  rewrite bool_decide_eq_false_2 by exact Hfree.
  reflexivity.
Qed.

Lemma Product_save_cases self db :
  (slug_free self db
   ∧ Product_save now self db
     = (set_products (<[product_key self db := Product_stored now self db]>
                        (products db)) db,
        Ok (Product_stored now self db)))
  ∨ (¬ slug_free self db
     ∧ Product_save now self db = (db, Raise IntegrityError)).
Proof.
  destruct (decide (slug_free self db)) as [Hfree|Hfree].
  - left. split; [exact Hfree|]. by apply Product_save_ok.
  - right. split; [exact Hfree|]. by apply Product_save_raises.
Qed.

(** What the row written keeps of the object saved. *)
Lemma Product_stored_stats self db :
  stats (Product_stored now self db) = stats self.
Proof. unfold Product_stored. by case_bool_decide. Qed.

Lemma Product_stored_pk self db :
  pk (Product_stored now self db) = Some (product_key self db).
Proof. unfold Product_stored. by case_bool_decide. Qed.

Lemma Product_stored_slug self db :
  slug (Product_stored now self db) = saved_slug self.
Proof. unfold Product_stored. by case_bool_decide. Qed.

Lemma Product_stored_name self db :
  name (Product_stored now self db) = name self.
Proof. unfold Product_stored. by case_bool_decide. Qed.


(** Saving an object that is the stored row, with its slug in the
    state [Product.save] leaves slugs in, only moves [updated_at]. *)
Lemma Product_stored_in_sync self db k :
  pk self = Some k → is_Some (products db !! k) →
  (slug self = "" → slugify (name self) = "") →
  Product_stored now self db = set_updated_at now self.
Proof.
  intros Hpk [r Hr] Hslug. unfold Product_stored, product_key.
  rewrite Hpk. cbn. rewrite Hr, bool_decide_eq_false_2 by done.
  assert (saved_slug self = slug self) as ->.
  { unfold saved_slug. case_bool_decide as Hs; [|done].
    by rewrite Hs, Hslug. }
  destruct self; cbn in *. by subst.
Qed.
End product_save.

(** ** Recomputing the cached statistics *)

Section update_price_stats.
Context `{Django}.
Variable now : Z.
Import Product.

Lemma update_price_stats_nil self db :
  available_prices self db = [] →
  Product_update_price_stats now self db = (db, Ok self).
Proof.
  intros Hnil. unfold Product_update_price_stats. unfold_M.
  by rewrite Hnil.
Qed.

Lemma update_price_stats_cons self db p ps :
  available_prices self db = p :: ps →
  Product_update_price_stats now self db
  = Product_save now (recomputed self p ps) db.
Proof.
  intros Hcons. unfold Product_update_price_stats. unfold_M.
  by rewrite Hcons.
Qed.

Lemma available_prices_pk self db :
  available_prices self db ≠ [] → is_Some (pk self).
Proof. unfold available_prices. destruct (pk self); [eauto|done]. Qed.

(** The query reads the observation table and the object's key, and
    nothing else. *)
Lemma available_prices_ext self self' db db' :
  pk self = pk self' → retailer_prices db = retailer_prices db' →
  available_prices self db = available_prices self' db'.
Proof.
  intros Hpk Hrows. unfold available_prices, available_rows.
  by rewrite Hpk, Hrows.
Qed.

(** A price is returned exactly for the available rows of the product. *)
Lemma elem_of_available_prices self db k x :
  pk self = Some k →
  x ∈ available_prices self db ↔
  ∃ j r, retailer_prices db !! j = Some r
         ∧ RetailerProductPrice.product r = k
         ∧ RetailerProductPrice.is_available r = true
         ∧ RetailerProductPrice.price r = x.
Proof.
  intros Hpk. unfold available_prices, available_rows. rewrite Hpk.
  rewrite list_elem_of_fmap. split.
  - intros [[j r] [-> Hin]]. apply list_elem_of_filter in Hin as [[Hp Ha] Hin].
    apply elem_of_map_to_list in Hin. by exists j, r.
  - intros (j & r & Hr & Hp & Ha & Hx). exists (j, r). split; [done|].
    apply list_elem_of_filter. split; [done|]. by apply elem_of_map_to_list.
Qed.

(** What a recomputation leaves alone, whether it goes through or
    raises: every table but the product table, and every product row
    but the object's own. *)
Lemma update_price_stats_frame self db :
  let db' := (Product_update_price_stats now self db).1 in
  same_observations db db' ∧ same_history db db' ∧ same_scrapers db db'
  ∧ log db' = log db
  ∧ ∀ j, pk self ≠ Some j → products db' !! j = products db !! j.
Proof.
  destruct (available_prices self db) as [|p ps] eqn:Hprices.
  - rewrite update_price_stats_nil by done. by repeat split.
  - rewrite (update_price_stats_cons _ _ p ps) by done.
    destruct (Product_save_cases now (recomputed self p ps) db)
      as [[_ ->]|[_ ->]]; [|by repeat split].
    cbn. repeat split. intros j Hj.
    destruct (available_prices_pk self db) as [k Hk]; [by rewrite Hprices|].
    unfold product_key. cbn. rewrite Hk in *. cbn.
    apply lookup_insert_ne. congruence.
Qed.
End update_price_stats.

(** ** Saving an observation *)

Section observation_save.
Context `{Django}.
Variable now : Z.
Import RetailerProductPrice.

Lemma compared_pk self db : pk (compared self db) = pk self.
Proof.
  unfold compared. destruct (pk self) as [k|] eqn:Hk; [|done].
  destruct (retailer_prices db !! k); [|done].
  by case_bool_decide.
Qed.

Lemma compared_product self db : product (compared self db) = product self.
Proof.
  unfold compared. destruct (pk self) as [k|]; [|done].
  destruct (retailer_prices db !! k); [|done].
  by case_bool_decide.
Qed.


Lemma compared_price self db : price (compared self db) = price self.
Proof.
  unfold compared. destruct (pk self) as [k|]; [|done].
  destruct (retailer_prices db !! k); [|done].
  by case_bool_decide.
Qed.

Lemma Model_save_price_ok self db pid :
  Product.pk (product self) = Some pid →
  is_Some (products db !! pid) →
  unique_free now self pid db →
  Model_save_RetailerProductPrice now self db
  = (set_retailer_prices
       (<[price_key self db := price_row now self pid db]> (retailer_prices db))
       db,
     Ok (price_stored now self db)).
Proof.
  intros Hpid [p Hp] Hfree. unfold Model_save_RetailerProductPrice.
  rewrite Hpid, bool_decide_eq_false_2 by (rewrite Hp; done).
  cbn zeta. by rewrite bool_decide_eq_true_2 by exact Hfree.
Qed.

Lemma Model_save_price_inv self db db' res :
  Model_save_RetailerProductPrice now self db = (db', res) →
  (∃ e, res = Raise e ∧ db' = db)
  ∨ (∃ pid, Product.pk (product self) = Some pid
            ∧ is_Some (products db !! pid)
            ∧ unique_free now self pid db
            ∧ res = Ok (price_stored now self db)
            ∧ db' = set_retailer_prices
                      (<[price_key self db := price_row now self pid db]>
                         (retailer_prices db)) db).
Proof.
  unfold Model_save_RetailerProductPrice.
  destruct (Product.pk (product self)) as [pid|] eqn:Hpid;
    [|intros [= <- <-]; left; eauto].
  case_bool_decide as Hrow; [intros [= <- <-]; left; eauto|].
  cbn zeta. case_bool_decide as Hfree; intros [= <- <-]; [|left; eauto].
  right. exists pid. repeat split; try done.
  by apply not_eq_None_Some.
Qed.

Lemma save_unfold self db :
  RetailerProductPrice_save now self db
  = match pk self with
    | Some k =>
        match retailer_prices db !! k with
        | Some _ => save_tail now (compared self db) db
        | None => (db, Raise DoesNotExist)
        end
    | None => save_tail now self db
    end.
Proof.
  unfold RetailerProductPrice_save, compared, save_tail.
  unfold RetailerProductPrice_objects_get. unfold_M.
  destruct (pk self) as [k|]; [|done].
  destruct (retailer_prices db !! k) as [old|]; [|done].
  by case_bool_decide.
Qed.


(** Conversely, the conditions under which [save] returns. *)
Lemma save_Ok_intro self db pid db2 p :
  let c := compared self db in
  let db1 := set_retailer_prices
               (<[price_key c db := price_row now c pid db]>
                  (retailer_prices db)) db in
  row_known self db →
  Product.pk (product self) = Some pid →
  is_Some (products db !! pid) →
  unique_free now c pid db →
  Product_update_price_stats now (product self) db1 = (db2, Ok p) →
  RetailerProductPrice_save now self db
  = (db2, Ok (set_product p (price_stored now c db))).
Proof.
  intros c db1 Hknown Hpid Hp Hfree Hupd. rewrite save_unfold.
  assert (save_tail now c db = (db2, Ok (set_product p (price_stored now c db))))
    as Htail.
  { unfold save_tail. unfold_M.
    rewrite (Model_save_price_ok c db pid); try done;
      [|by unfold c; rewrite compared_product].
    change (product (price_stored now c db)) with (product c).
    unfold c at 1. rewrite compared_product.
    fold db1. by rewrite Hupd. }
  unfold row_known in Hknown. subst c. unfold compared in *.
  destruct (pk self) as [k|]; [|exact Htail].
  destruct (Hknown k eq_refl) as [old Hold]. rewrite Hold in *.
  exact Htail.
Qed.

(** [save] never writes to the history table, the scraper tables or
    the log, whether it returns or raises. *)
Lemma save_frame self db :
  let db' := (RetailerProductPrice_save now self db).1 in
  same_history db db' ∧ same_scrapers db db' ∧ log db' = log db.
Proof.
  rewrite save_unfold.
  assert (∀ c, let db' := (save_tail now c db).1 in
               same_history db db' ∧ same_scrapers db db' ∧ log db' = log db)
    as Htail.
  { intros c. unfold save_tail. unfold_M.
    destruct (Model_save_RetailerProductPrice now c db) as [db1 res] eqn:Hm.
    apply Model_save_price_inv in Hm
      as [(e & -> & ->)|(pid & _ & _ & _ & -> & ->)]; [by repeat split|].
    match goal with
    | |- context [Product_update_price_stats now ?p ?d] =>
        pose proof (update_price_stats_frame now p d) as Hframe;
        destruct (Product_update_price_stats now p d) as [db2 [q|e]]
    end; cbn in *; unfold same_history, same_scrapers in *; cbn in *;
      intuition congruence. }
  destruct (pk self) as [k|]; [|apply Htail].
  destruct (retailer_prices db !! k); [apply Htail|by repeat split].
Qed.
End observation_save.

(** ** What a recomputation writes *)

Section recompute.
Context `{Django}.
Variable now : Z.
Import Product.

Lemma stats_recomputed self p ps :
  stats (recomputed self p ps) = stats_of (p :: ps).
Proof. reflexivity. Qed.

Lemma stats_of_perm l l' : l ≡ₚ l' → stats_of l = stats_of l'.
Proof.
  intros Hperm. destruct l as [|p ps], l' as [|q qs].
  - reflexivity.
  - by apply Permutation_nil_cons in Hperm.
  - symmetry in Hperm. by apply Permutation_nil_cons in Hperm.
  - unfold stats_of.
    rewrite (py_min_perm p ps q qs Hperm), (py_max_perm p ps q qs Hperm).
    by rewrite (py_sum_perm _ _ Hperm), (Permutation_length Hperm).
Qed.

(** With the slug free, a recomputation goes through: it returns the
    object untouched when the query is empty, and otherwise writes the
    recomputed object at the product's key. *)
Lemma update_price_stats_ok self db :
  slug_free self db →
  Product_update_price_stats now self db
  = match available_prices self db with
    | [] => (db, Ok self)
    | p :: ps =>
        let self' := Product_stored now (recomputed self p ps) db in
        (set_products (<[product_key self db := self']> (products db)) db,
         Ok self')
    end.
Proof.
  intros Hfree. destruct (available_prices self db) as [|p ps] eqn:Hprices.
  - by apply update_price_stats_nil.
  - rewrite (update_price_stats_cons _ _ _ p ps) by done.
    by rewrite Product_save_ok.
Qed.

Lemma update_price_stats_stats self db db' self' :
  Product_update_price_stats now self db = (db', Ok self') →
  stats self'
  = match available_prices self db with
    | [] => stats self
    | prices => stats_of prices
    end.
Proof.
  destruct (available_prices self db) as [|p ps] eqn:Hprices.
  - rewrite update_price_stats_nil by done. by intros [= _ <-].
  - rewrite (update_price_stats_cons _ _ _ p ps) by done.
    destruct (Product_save_cases now (recomputed self p ps) db)
      as [[_ ->]|[_ ->]]; [|done].
    intros [= _ <-]. by rewrite Product_stored_stats.
Qed.
End recompute.

(** ** C2: the cached statistics after a recomputation *)

Section C2.
Context `{Django}.
Import Product.

(** C2 (amended).  After [update_price_stats] on a product with at least
    one available observation, the cached statistics are set and
    [lowest_price <= average_price <= highest_price]; on a product with
    no available observation nothing is written and nothing is raised:
    the three cached fields keep the values they had (null only if they
    were null before). *)
Theorem C2_stats_ordered_or_kept (now : Z) (self : Product.t) (db : Store) :
  (available_prices self db = [] →
   Product_update_price_stats now self db = (db, Ok self))
  ∧ (available_prices self db ≠ [] → slug_free self db →
     ∃ db' self' k lo hi avg,
       Product_update_price_stats now self db = (db', Ok self')
       ∧ pk self = Some k ∧ products db' !! k = Some self'
       ∧ lowest_price self' = Some lo
       ∧ highest_price self' = Some hi
       ∧ average_price self' = Some avg
       ∧ (inject_Z lo <= avg)%Q ∧ (avg <= inject_Z hi)%Q).
Proof.
  split; [apply update_price_stats_nil|].
  intros Hprices Hfree.
  destruct (available_prices_pk self db Hprices) as [k Hk].
  rewrite update_price_stats_ok by done.
  destruct (available_prices self db) as [|p ps]; [done|].
  pose proof (Product_stored_stats now (recomputed self p ps) db) as Hstats.
  unfold stats in Hstats. injection Hstats as Hlo Hhi Havg.
  eexists _, _, k, _, _, _. split; [reflexivity|].
  split; [exact Hk|]. split.
  { cbn. unfold product_key. rewrite Hk. apply lookup_insert_eq. }
  split; [exact Hlo|]. split; [exact Hhi|]. split; [exact Havg|].
  apply (mean_between _ _ _ (length (p :: ps))).
  - cbn. lia.
  - apply (py_sum_lower _ (p :: ps)). intros x Hx. by apply py_min_le.
  - apply (py_sum_upper _ (p :: ps)). intros x Hx. by apply py_max_ge.
Qed.
End C2.

(** C2, witness: the widget listed by one retailer, and the widget with
    its only listing withdrawn. *)
Lemma C2_stats_ordered_or_kept_witness :
  (∃ db' self' k lo hi avg,
     @Product_update_price_stats django 400 stored_widget shop = (db', Ok self')
     ∧ Product.pk stored_widget = Some k ∧ products db' !! k = Some self'
     ∧ Product.lowest_price self' = Some lo
     ∧ Product.highest_price self' = Some hi
     ∧ Product.average_price self' = Some avg
     ∧ (inject_Z lo <= avg)%Q ∧ (avg <= inject_Z hi)%Q)
  ∧ @Product_update_price_stats django 400 stored_widget delisted.1
    = (delisted.1, Ok stored_widget).
Proof.
  split.
  - apply (@C2_stats_ordered_or_kept django 400 stored_widget shop).
    + vm_compute. discriminate.
    + apply (bool_decide_unpack _). vm_compute. exact I.
  - apply (@C2_stats_ordered_or_kept django 400 stored_widget delisted.1).
    vm_compute. reflexivity.
Defined.

(** C2, counterexample: once its only listing is saved as unavailable,
    the widget has no available observation, yet the recomputation that
    [save] triggers, and any later one, leaves the three cached fields at
    10.00 instead of null. *)
Lemma C2_counterexample :
  ∃ p, products delisted.1 !! 1%positive = Some p
       ∧ @available_prices p delisted.1 = []
       ∧ Product.stats p = (Some 1000, Some 1000, Some (1000 # 1))
       ∧ ((@Product_update_price_stats django 400 p delisted.1).1) = delisted.1
       ∧ Product.lowest_price p ≠ None
       ∧ Product.highest_price p ≠ None
       ∧ Product.average_price p ≠ None.
Proof.
  eexists. split; [vm_compute; reflexivity|].
  repeat split; try (vm_compute; reflexivity); vm_compute; discriminate.
Qed.

(** ** The query behind the statistics *)

Section query.
Import RetailerProductPrice.
Implicit Types (rows : list (positive * row)) (T : gmap positive row).

Lemma available_prices_select self db k :
  Product.pk self = Some k →
  available_prices self db = select_prices k (map_to_list (retailer_prices db)).
Proof. intros Hk. unfold available_prices. by rewrite Hk. Qed.

Lemma select_prices_cons k j r rows :
  select_prices k ((j, r) :: rows)
  = if decide (product r = k ∧ is_available r = true)
    then price r :: select_prices k rows
    else select_prices k rows.
Proof. unfold select_prices. rewrite filter_cons. cbn. by case_decide. Qed.

#[global] Instance select_prices_perm k :
  Proper ((≡ₚ) ==> (≡ₚ)) (select_prices k).
Proof. intros rows rows' Hperm. unfold select_prices. by rewrite Hperm. Qed.

(** Columns other than [product], [is_available] and [price] do not
    reach the query. *)
Lemma select_prices_fmap k (f : row → row) rows :
  (∀ r, product (f r) = product r ∧ is_available (f r) = is_available r
        ∧ price (f r) = price r) →
  select_prices k (prod_map id f <$> rows) = select_prices k rows.
Proof.
  intros Hf. induction rows as [|[j r] rows IH]; [done|].
  rewrite fmap_cons. unfold prod_map at 1. cbn [fst snd id].
  rewrite !select_prices_cons, IH.
  destruct (Hf r) as (-> & -> & ->). done.
Qed.

End query.

(** ** C3: lowest, highest and average price *)

Section C3.
Context `{Django}.
Import Product.

End C3.



(** ** C4: observations in several currencies *)

Section C4.
Context `{Django}.
Import Product.

(** C4 (amended).  [update_price_stats] does not read the [currency]
    column.  For a product whose available observations carry more than
    one currency it recomputes the three cached fields from all their
    prices, as it does for a single currency: nothing is skipped, the
    former values are not kept, and nothing is logged. *)
Theorem C4_currency_not_examined (now : Z) (self : Product.t) (db : Store)
    (k j1 j2 : positive) (r1 r2 : RetailerProductPrice.row) :
  pk self = Some k →
  retailer_prices db !! j1 = Some r1 →
  retailer_prices db !! j2 = Some r2 →
  RetailerProductPrice.product r1 = k →
  RetailerProductPrice.product r2 = k →
  RetailerProductPrice.is_available r1 = true →
  RetailerProductPrice.is_available r2 = true →
  RetailerProductPrice.currency r1 ≠ RetailerProductPrice.currency r2 →
  slug_free self db →
  ∃ db' self',
    Product_update_price_stats now self db = (db', Ok self')
    ∧ products db' !! k = Some self'
    ∧ stats self' = stats_of (available_prices self db)
    ∧ RetailerProductPrice.price r1 ∈ available_prices self db
    ∧ RetailerProductPrice.price r2 ∈ available_prices self db
    ∧ log db' = log db
    ∧ (∀ code : RetailerProductPrice.row → string,
         available_prices self
           (set_retailer_prices
              ((λ r, RetailerProductPrice.set_currency (code r) r)
                 <$> retailer_prices db) db)
         = available_prices self db).
Proof.
  intros Hk Hj1 Hj2 Hp1 Hp2 Ha1 Ha2 _ Hfree.
  assert (RetailerProductPrice.price r1 ∈ available_prices self db) as Hin1.
  { apply (elem_of_available_prices _ _ k); [done|]. by exists j1, r1. }
  assert (RetailerProductPrice.price r2 ∈ available_prices self db) as Hin2.
  { apply (elem_of_available_prices _ _ k); [done|]. by exists j2, r2. }
  pose proof (update_price_stats_frame now self db) as (_ & _ & _ & Hlog & _).
  rewrite update_price_stats_ok in * by done.
  destruct (available_prices self db) as [|p ps] eqn:Hprices;
    [by apply elem_of_nil in Hin1|].
  eexists _, _. split; [reflexivity|]. split.
  { cbn. unfold product_key. rewrite Hk. apply lookup_insert_eq. }
  split; [by rewrite Product_stored_stats|].
  split; [done|]. split; [done|]. split; [exact Hlog|].
  intros code. rewrite <- Hprices.
  rewrite !(available_prices_select _ _ k) by done. cbn.
  rewrite map_to_list_fmap. by apply select_prices_fmap.
Qed.
End C4.

(** C4, witness: the widget listed at 10.00 USD and at 20.00 EUR. *)
Lemma C4_currency_not_examined_witness :
  ∃ db' self',
    @Product_update_price_stats django 400 stored_widget listed_abroad.1
    = (db', Ok self')
    ∧ Product.stats self' = (Some 1000, Some 2000, Some (3000 # 2))
    ∧ log db' = [].
Proof.
  destruct (@C4_currency_not_examined django 400 stored_widget
              listed_abroad.1 1 1 2
              (default (RetailerProductPrice.set_product 1%positive listing)
                 (retailer_prices listed_abroad.1 !! 1%positive))
              (default (RetailerProductPrice.set_product 1%positive listing)
                 (retailer_prices listed_abroad.1 !! 2%positive)))
    as (db' & self' & Hrun & _ & Hstats & _ & _ & Hlog & _);
    try (vm_compute; reflexivity).
  - vm_compute. discriminate.
  - apply (bool_decide_unpack _). vm_compute. exact I.
  - exists db', self'. split; [exact Hrun|].
    split; [rewrite Hstats; vm_compute; reflexivity|exact Hlog].
Defined.

(** C4, counterexample: the widget is listed at 10.00 USD and its cached
    fields are 10.00; once a second retailer lists it at 20.00 EUR the
    recomputation is not skipped: the fields become 10.00, 20.00 and
    15.00, a mean taken across the two currencies, and the log stays
    empty. *)
Lemma C4_counterexample :
  ∃ before after,
    products shop !! 1%positive = Some before
    ∧ products listed_abroad.1 !! 1%positive = Some after
    ∧ (RetailerProductPrice.currency
         <$> retailer_prices listed_abroad.1 !! 1%positive) = Some "USD"
    ∧ (RetailerProductPrice.currency
         <$> retailer_prices listed_abroad.1 !! 2%positive) = Some "EUR"
    ∧ Product.stats before = (Some 1000, Some 1000, Some (1000 # 1))
    ∧ Product.stats after = (Some 1000, Some 2000, Some (3000 # 2))
    ∧ Product.stats after ≠ Product.stats before
    ∧ log listed_abroad.1 = [].
Proof.
  eexists _, _. split; [vm_compute; reflexivity|].
  split; [vm_compute; reflexivity|].
  repeat split; try (vm_compute; reflexivity).
  vm_compute. discriminate.
Qed.

(** ** C10: what a recomputation touches *)

Section C10.
Context `{Django}.
Import Product.

(** [Product.save] leaves every slug it writes settled: empty only when
    [slugify] of the name is empty. *)
Lemma Product_stored_slug_settled now self db :
  slug (Product_stored now self db) = "" →
  slugify (name (Product_stored now self db)) = "".
Proof.
  rewrite Product_stored_slug, Product_stored_name. unfold saved_slug.
  case_bool_decide; done.
Qed.


Lemma same_but_stats_refl r : same_but_stats r r.
Proof. by destruct r. Qed.

Lemma same_but_stats_trans r r' r'' :
  same_but_stats r r' → same_but_stats r' r'' → same_but_stats r r''.
Proof.
  unfold same_but_stats. intros <- <-. by destruct r''.
Qed.

Lemma stats_only_refl db : stats_only db db.
Proof.
  repeat split. intros k. destruct (products db !! k) as [r|] eqn:Hr; [|done].
  exists r. split; [done|apply same_but_stats_refl].
Qed.

Lemma stats_only_trans db db' db'' :
  stats_only db db' → stats_only db' db'' → stats_only db db''.
Proof.
  intros (Ho & Hh & Hc & Hr & Hl & Hp) (Ho' & Hh' & Hc' & Hr' & Hl' & Hp').
  repeat split; try congruence.
  intros k. specialize (Hp k). specialize (Hp' k).
  destruct (products db !! k) as [r|].
  - destruct Hp as (r' & Hk' & Hsame). rewrite Hk' in Hp'.
    destruct Hp' as (r'' & Hk'' & Hsame'). exists r''. split; [done|].
    by apply (same_but_stats_trans _ r').
  - by rewrite Hp in Hp'.
Qed.

(** Recomputing on an object that is the stored row changes that row
    only, and only in the cached fields and [updated_at]. *)
Lemma recompute_stats_only now self db k :
  pk self = Some k →
  products db !! k = Some self →
  (slug self = "" → slugify (name self) = "") →
  let db' := (Product_update_price_stats now self db).1 in
  stats_only db db'
  ∧ ∀ j, j ≠ k → products db' !! j = products db !! j.
Proof.
  intros Hk Hrow Hslug db'.
  pose proof (update_price_stats_frame now self db)
    as (Hobs & Hhist & [Hcfg Hruns] & Hlog & Hothers).
  fold db' in Hobs, Hhist, Hcfg, Hruns, Hlog, Hothers.
  assert (∀ j, j ≠ k → products db' !! j = products db !! j) as Hothers'.
  { intros j Hj. apply Hothers. rewrite Hk. congruence. }
  split; [|exact Hothers'].
  repeat (split; [assumption|]).
  intros j. destruct (decide (j = k)) as [->|Hj].
  - rewrite Hrow. subst db'.
    destruct (available_prices self db) as [|p ps] eqn:Hprices.
    + rewrite update_price_stats_nil by done. exists self.
      split; [exact Hrow|apply same_but_stats_refl].
    + rewrite (update_price_stats_cons _ _ _ p ps) by done.
      destruct (Product_save_cases now (recomputed self p ps) db)
        as [[_ ->]|[_ ->]].
      * rewrite (Product_stored_in_sync now _ db k) by (cbn; eauto).
        eexists. split.
        { cbn. unfold product_key. cbn. rewrite Hk. apply lookup_insert_eq. }
        unfold same_but_stats. by destruct self.
      * exists self. split; [exact Hrow|apply same_but_stats_refl].
  - rewrite Hothers' by done.
    destruct (products db !! j) as [r|]; [|done].
    exists r. split; [done|apply same_but_stats_refl].
Qed.


(** The loop of [update_product_prices], by induction on the rows still
    to visit: the rows not yet visited are still as they were fetched. *)
Lemma for_each_recompute now db0 (rows : list Product.t) db :
  stats_only db0 db →
  NoDup (pk <$> rows) →
  (∀ r, r ∈ rows →
        ∃ k, pk r = Some k ∧ products db !! k = Some r
             ∧ (slug r = "" → slugify (name r) = "")) →
  stats_only db0
    (for_each (λ product, _ ← Product_update_price_stats now product; mret tt)
              rows db).1.
Proof.
  revert db. induction rows as [|r rows IH]; intros db Hdb Hnodup Hsync.
  - exact Hdb.
  - destruct (Hsync r) as (k & Hk & Hrow & Hslug); [apply list_elem_of_here|].
    pose proof (recompute_stats_only now r db k Hk Hrow Hslug) as [Hstep Hothers].
    cbn [for_each]. unfold_M.
    destruct (Product_update_price_stats now r db) as [db' [q|e]];
      cbn [fst] in *.
    + apply IH.
      * by apply (stats_only_trans _ db).
      * by apply NoDup_cons in Hnodup as [_ ?].
      * intros r' Hr'.
        destruct (Hsync r') as (k' & Hk' & Hrow' & Hslug');
          [by apply list_elem_of_further|].
        exists k'. split; [done|]. split; [|done].
        rewrite Hothers; [done|]. intros ->.
        apply NoDup_cons in Hnodup as [Hnotin _]. apply Hnotin.
        rewrite Hk, <- Hk'. by apply list_elem_of_fmap_2.
    + by apply (stats_only_trans _ db).
Qed.

Lemma settled_keys db :
  settled db →
  pk <$> (map_to_list (products db)).*2 = Some <$> (map_to_list (products db)).*1.
Proof.
  intros Hsettled.
  assert (Forall (λ kv, products db !! kv.1 = Some kv.2)
                 (map_to_list (products db))) as Hall.
  { apply Forall_forall. intros [k r] Hin. by apply elem_of_map_to_list. }
  induction Hall as [|[k r] l Hkr _ IH]; [done|].
  cbn. f_equal; [|exact IH]. by destruct (Hsettled k r Hkr).
Qed.

(** The whole pass of [update_product_prices] over a settled store
    changes cached statistics and [updated_at] only, whether it runs to
    the end or an exception leaves the loop. *)
Lemma update_product_prices_stats_only now db :
  settled db → stats_only db (update_product_prices now db).1.
Proof.
  intros Hsettled. unfold update_product_prices. unfold_M.
  pose proof (for_each_recompute now db (map_to_list (products db)).*2 db
                (stats_only_refl db)) as Hloop.
  destruct (for_each _ _ db) as [db' [[]|e]]; cbn [fst] in *; apply Hloop.
  all: try (rewrite settled_keys by done;
            apply (NoDup_fmap_2 _), NoDup_fst_map_to_list).
  all: intros r Hr; apply list_elem_of_fmap in Hr as ([k r'] & -> & Hin);
       apply elem_of_map_to_list in Hin; cbn;
       destruct (Hsettled k r' Hin) as [Hk Hslug]; by exists k.
Qed.
End C10.


(** ** What [RetailerProductPrice.save] writes *)

Section save_run.
Context `{Django}.
Variable now : Z.
Import RetailerProductPrice.

Lemma set_product_same (o : obj) : set_product (product o) o = o.
Proof. by destruct o. Qed.

(** The store after the first write, and the whole run of an accepted
    [save]. *)
Lemma save_accepted_run self db :
  save_accepted now self db →
  ∃ pid,
    let c := compared self db in
    let db1 := set_retailer_prices
                 (<[price_key c db := price_row now c pid db]>
                    (retailer_prices db)) db in
    Product.pk (product self) = Some pid
    ∧ products db1 = products db
    ∧ RetailerProductPrice_save now self db
      = match available_prices (product self) db1 with
        | [] => (db1, Ok (price_stored now c db))
        | p :: ps =>
            let q := Product_stored now (recomputed (product self) p ps) db in
            (set_products (<[pid := q]> (products db)) db1,
             Ok (set_product q (price_stored now c db)))
        end.
Proof.
  intros (Hknown & pid & Hpid & Hprod & Hunique & Hslug).
  exists pid. cbn zeta. split; [exact Hpid|]. split; [reflexivity|].
  set (c := compared self db).
  set (db1 := set_retailer_prices _ db).
  assert (slug_free (product self) db1) as Hslug1 by exact Hslug.
  pose proof (update_price_stats_ok now (product self) db1 Hslug1) as Hupd.
  destruct (available_prices (product self) db1) as [|p ps] eqn:Hprices.
  - rewrite (save_Ok_intro now self db pid db1 (product self)); try done.
    f_equal. f_equal. rewrite <- (compared_product self db).
    apply (set_product_same (price_stored now c db)).
  - cbn zeta in Hupd.
    assert (product_key (product self) db1 = pid) as Hkey
      by (unfold product_key; by rewrite Hpid).
    rewrite Hkey in Hupd.
    by rewrite (save_Ok_intro now self db pid _ _ Hknown Hpid Hprod Hunique Hupd).
Qed.

Lemma price_key_fresh self db :
  pk self = None → retailer_prices db !! price_key self db = None.
Proof.
  intros Hpk. unfold price_key. rewrite Hpk. cbn.
  apply not_elem_of_dom, is_fresh.
Qed.
End save_run.

(** ** C1: the previous price, and the history table *)

Section C1.
Context `{Django}.
Import RetailerProductPrice.

(** The comparison of lines 238-241, case by case. *)
Lemma compared_cases (self : obj) (db : Store) :
  row_known self db →
  match pk self with
  | Some j =>
      price_key (compared self db) db = j
      ∧ ∃ old_instance,
          retailer_prices db !! j = Some old_instance
          ∧ (price old_instance ≠ price self
             → previous_price (compared self db) = Some (price old_instance))
          ∧ (price old_instance = price self
             → previous_price (compared self db) = previous_price self)
  | None =>
      retailer_prices db !! price_key (compared self db) db = None
      ∧ previous_price (compared self db) = previous_price self
  end.
Proof.
  intros Hknown. unfold price_key. rewrite compared_pk.
  unfold compared, row_known in *.
  destruct (pk self) as [j|] eqn:Hj.
  - split; [done|]. specialize (Hknown j eq_refl).
    destruct (retailer_prices db !! j) as [old|]; [|by destruct Hknown].
    exists old. split; [done|].
    case_bool_decide; split; intros; done.
  - split; [|done]. cbn. apply not_elem_of_dom, is_fresh.
Qed.

(** C1 (amended).  An accepted [save] of an observation stores its price
    and never appends to the price history.  When the object names a
    stored row whose price differs from the new one, [previous_price]
    becomes the stored price; when the stored price is the same, and when
    the object names no row yet (a first observation), [previous_price]
    is left as the object carries it, which is null unless the caller set
    it. *)
Theorem C1_save_previous_price_no_history (now : Z) (self : obj)
    (db : Store) :
  save_accepted now self db →
  ∃ db' self' k row,
    RetailerProductPrice_save now self db = (db', Ok self')
    ∧ price_history db' = price_history db
    ∧ pk self' = Some k
    ∧ retailer_prices db' !! k = Some row
    ∧ price row = price self
    ∧ previous_price row = previous_price self'
    ∧ match pk self with
      | Some j =>
          k = j
          ∧ ∃ old_instance,
              retailer_prices db !! j = Some old_instance
              ∧ (price old_instance ≠ price self
                 → previous_price self' = Some (price old_instance))
              ∧ (price old_instance = price self
                 → previous_price self' = previous_price self)
      | None =>
          retailer_prices db !! k = None
          ∧ previous_price self' = previous_price self
      end.
Proof.
  intros Hacc.
  pose proof (save_frame now self db) as (Hhist & _).
  destruct (save_accepted_run now self db Hacc) as (pid & Hpid & _ & Hrun).
  cbn zeta in Hrun. destruct Hacc as (Hknown & _).
  set (c := compared self db) in *.
  set (k := price_key c db) in *.
  assert (∀ q : Product.t,
            previous_price (set_product q (price_stored now c db))
            = previous_price c) as Hprev by reflexivity.
  pose proof (compared_cases self db Hknown) as Hcases.
  fold c k in Hcases.
  rewrite Hrun in Hhist. rewrite Hrun.
  destruct (available_prices (product self) _) as [|p ps];
    eexists _, _, k, (price_row now c pid db);
    (split; [reflexivity|]); (split; [exact Hhist|]);
    (split; [reflexivity|]);
    (split; [cbn; apply lookup_insert_eq|]);
    (split; [cbn; apply compared_price|]);
    (split; [reflexivity|]); exact Hcases.
Qed.
End C1.

(** C1, witness: retailer 1 corrects its listing from 10.00 to 8.00. *)
Lemma C1_save_previous_price_no_history_witness :
  ∃ db' self',
    @RetailerProductPrice_save django 300
      (RetailerProductPrice.set_price 800 listing) shop = (db', Ok self')
    ∧ price_history db' = price_history shop
    ∧ RetailerProductPrice.previous_price self' = Some 1000.
Proof.
  destruct (@C1_save_previous_price_no_history django 300
              (RetailerProductPrice.set_price 800 listing) shop)
    as (db' & self' & k & row & Hrun & Hhist & _ & _ & _ & _ & Hcases).
  { split; [intros k [= <-]; vm_compute; eauto|].
    exists 1%positive. split; [vm_compute; reflexivity|].
    split; [vm_compute; eauto|].
    split; apply (bool_decide_unpack _); vm_compute; exact I. }
  exists db', self'. split; [exact Hrun|]. split; [exact Hhist|].
  vm_compute in Hrun. injection Hrun as <- <-. reflexivity.
Defined.

(** C1, counterexample: the first observation of the widget by retailer 1
    and, after it, a change of its price from 10.00 to 8.00.  Both saves
    go through, and the history table is empty after each: no entry was
    appended. *)
Lemma C1_counterexample :
  retailer_prices catalog = ∅
  ∧ (∃ self', listed = (shop, Ok self')
              ∧ RetailerProductPrice.price self' = 1000)
  ∧ size (price_history shop) = 0%nat
  ∧ (∃ self', repriced.2 = Ok self'
              ∧ RetailerProductPrice.price self' = 800
              ∧ RetailerProductPrice.previous_price self' = Some 1000)
  ∧ size (price_history repriced.1) = 0%nat
  ∧ size (price_history shop) ≠ S (size (price_history catalog))
  ∧ size (price_history repriced.1) ≠ S (size (price_history shop)).
Proof.
  split; [vm_compute; reflexivity|].
  split; [eexists; split; vm_compute; reflexivity|].
  split; [vm_compute; reflexivity|].
  split; [eexists; repeat split; vm_compute; reflexivity|].
  repeat split; try (vm_compute; reflexivity); vm_compute; discriminate.
Qed.

(** ** C7: a negative price *)

Section C7.
Context `{Django}.
Import RetailerProductPrice.

End C7.



(** ** C6: the two source references *)

(** C6, the code at the failing inputs.  The comment of lines 196-200
    asks for exactly one of [retailer] and [small_retailer]; [save] does
    not check it.  An observation that names no source is stored, and so
    is one that names both. *)
Lemma C6_sources_not_checked :
  (RetailerProductPrice.retailer sourceless = None
   ∧ RetailerProductPrice.small_retailer sourceless = None
   ∧ ∃ db' self' row,
       @RetailerProductPrice_save django 200 sourceless catalog
       = (db', Ok self')
       ∧ retailer_prices db' !! 1%positive = Some row
       ∧ RetailerProductPrice.retailer row = None
       ∧ RetailerProductPrice.small_retailer row = None)
  ∧ (∃ db' self' row,
       @RetailerProductPrice_save django 200 two_sources catalog
       = (db', Ok self')
       ∧ retailer_prices db' !! 1%positive = Some row
       ∧ RetailerProductPrice.retailer row = Some 1%positive
       ∧ RetailerProductPrice.small_retailer row = Some 1%positive).
Proof.
  split; [split; [reflexivity|split; [reflexivity|]]|];
    eexists _, _, _; (split; [vm_compute; reflexivity|]);
    repeat split; vm_compute; reflexivity.
Qed.

(** ** C8: the retention sweep *)

Section C8.
Import PriceHistory.

Lemma clean_old_price_data_run now db :
  clean_old_price_data now db
  = let old_records :=
      filter (λ kv, timestamp kv.2 < now - timedelta_days 365)
             (price_history db) in
    (set_price_history (price_history db ∖ old_records) db,
     Ok ("Deleted " +:+ pretty (size old_records)
         +:+ " price history records older than one year.")).
Proof. reflexivity. Qed.

Lemma lookup_swept now db j h :
  (price_history db
   ∖ filter (λ kv, timestamp kv.2 < now - timedelta_days 365)
            (price_history db)) !! j = Some h
  ↔ price_history db !! j = Some h
    ∧ ¬ timestamp h < now - timedelta_days 365.
Proof.
  rewrite lookup_difference_Some, map_lookup_filter_None. cbn. split.
  - intros [Hj [Hnone|Hnot]]; [congruence|]. split; [done|]. by apply Hnot.
  - intros [Hj Hnot]. split; [done|]. right. intros h' Hh'.
    by replace h' with h by congruence.
Qed.

(** C8.  [clean_old_price_data] deletes exactly the history rows whose
    timestamp is earlier than 365 days before [now]: every such row is
    gone, every other row is still there unchanged, and no other table
    is touched.  It reports the number of rows deleted.  Run again at
    the same instant it deletes nothing and leaves the store as it is. *)
Theorem C8_retention_sweep (now : Z) (db : Store) :
  let one_year_ago := now - 365 * 86400 * 1000000 in
  let swept := (clean_old_price_data now db).1 in
  (∀ j h, price_history swept !! j = Some h
          ↔ price_history db !! j = Some h ∧ ¬ timestamp h < one_year_ago)
  ∧ (∀ j h, price_history db !! j = Some h → timestamp h < one_year_ago
            → price_history swept !! j = None)
  ∧ products swept = products db
  ∧ retailer_prices swept = retailer_prices db
  ∧ scraper_configs swept = scraper_configs db
  ∧ scraper_runs swept = scraper_runs db
  ∧ log swept = log db
  ∧ (clean_old_price_data now db).2
    = Ok ("Deleted "
          +:+ pretty (size (filter (λ kv, timestamp kv.2 < one_year_ago)
                                   (price_history db)))
          +:+ " price history records older than one year.")
  ∧ clean_old_price_data now swept
    = (swept, Ok "Deleted 0 price history records older than one year.").
Proof.
  intros one_year_ago swept.
  change one_year_ago with (now - timedelta_days 365) in *.
  subst swept. rewrite clean_old_price_data_run. cbn zeta. cbn [fst snd].
  split; [intros j h; cbn; apply lookup_swept|].
  split.
  { intros j h Hj Hold. apply eq_None_not_Some. intros [h' Hj'].
    apply (lookup_swept now db j h') in Hj' as [Hj' Hnew].
    replace h' with h in * by congruence. done. }
  repeat (split; [reflexivity|]).
  rewrite clean_old_price_data_run. cbn zeta.
  set (kept := price_history db ∖ _).
  assert (filter (λ kv, timestamp kv.2 < now - timedelta_days 365) kept = ∅)
    as Hnone.
  { apply map_empty. intros j. apply map_lookup_filter_None. right.
    intros h Hh. by apply lookup_swept in Hh as [_ Hnew]. }
  cbn [price_history set_price_history]. rewrite Hnone.
  rewrite map_difference_empty, map_size_empty. reflexivity.
Qed.
End C8.

(** C8, witness: on day 1000 the entry of day 270 is deleted; the entry
    dated exactly 365 days back and the newer entry stay; a second sweep
    deletes nothing. *)
Lemma C8_retention_sweep_witness :
  price_history swept_archive !! 1%positive = None
  ∧ price_history swept_archive !! 2%positive = Some (entry 635 1000)
  ∧ price_history swept_archive !! 3%positive = Some (entry 1000 800)
  ∧ (clean_old_price_data (1000 * day) archive).2
    = Ok "Deleted 1 price history records older than one year."
  ∧ clean_old_price_data (1000 * day) swept_archive
    = (swept_archive,
       Ok "Deleted 0 price history records older than one year.").
Proof.
  destruct (C8_retention_sweep (1000 * day) archive)
    as (Hkept & Hgone & _ & _ & _ & _ & _ & Hmsg & Hagain).
  change (clean_old_price_data (1000 * day) archive).1 with swept_archive
    in Hkept, Hgone, Hagain.
  split; [apply (Hgone 1%positive (entry 270 1200)); vm_compute; reflexivity|].
  split; [apply Hkept; split; [vm_compute; reflexivity|vm_compute; discriminate]|].
  split; [apply Hkept; split; [vm_compute; reflexivity|vm_compute; discriminate]|].
  split; [rewrite Hmsg; vm_compute; reflexivity|exact Hagain].
Defined.

(** ** C9: scraper runs *)

Section C9.
Import ScraperRun.

Lemma run_scraper_run config_id db :
  run_scraper config_id db
  = match ScraperConfig.is_active <$> scraper_configs db !! config_id with
    | Some true => (db, Ok tt)
    | _ =>
        (set_log (log db ++ ["Scraper configuration with ID "
                             +:+ pretty (Npos config_id)
                             +:+ " not found or not active."]) db,
         Ok tt)
    end.
Proof.
  unfold run_scraper, ScraperConfig_objects_get_active. unfold_M.
  destruct (scraper_configs db !! config_id) as [c|]; [|done].
  cbn. by destruct (ScraperConfig.is_active c).
Qed.

End C9.



(** ** C5: saving the same observation again *)

Section C5.
Context `{Django}.
Import RetailerProductPrice.

Lemma collides_ext (r' a b : row) :
  product a = product b → retailer a = retailer b →
  small_retailer a = small_retailer b →
  collides r' a = collides r' b.
Proof. intros Hp Hr Hs. unfold collides. by rewrite Hp, Hr, Hs. Qed.



(** A second object with the same product and source as a stored row,
    but no key of its own, is refused by [unique_together]: [save]
    raises and the store is as before. *)
Lemma save_fresh_copy_refused now self db k stored pid :
  pk self = None →
  Product.pk (product self) = Some pid →
  is_Some (products db !! pid) →
  retailer_prices db !! k = Some stored →
  collides stored (set_product pid self) = true →
  RetailerProductPrice_save now self db = (db, Raise IntegrityError).
Proof.
  intros Hpk Hpid [p Hp] Hstored Hcollides.
  rewrite save_unfold, Hpk. unfold save_tail. unfold_M.
  unfold Model_save_RetailerProductPrice.
  rewrite Hpid, bool_decide_eq_false_2 by (rewrite Hp; done).
  cbn zeta. rewrite bool_decide_eq_false_2; [done|].
  intros Hall. specialize (Hall k stored Hstored). cbn in Hall.
  destruct Hall as [Hkey|Hfree].
  - rewrite Hpk in Hkey. cbn in Hkey.
    pose proof (is_fresh (dom (retailer_prices db))) as Hfresh.
    rewrite <- Hkey in Hfresh. apply Hfresh, elem_of_dom. eauto.
  - rewrite (collides_ext _ _ (set_product pid self)) in Hfree by done.
    congruence.
Qed.
End C5.


(** * More properties *)

(** ** Counting a view *)

Section view_count.
Context `{Django}.

Lemma increment_view_count_run product_id db :
  increment_view_count product_id db
  = match products db !! product_id with
    | Some r =>
        (set_products
           (<[product_id :=
                Product_set_view_count (Product.view_count r + 1) r]>
              (products db)) db,
         Ok ("Incremented view count for product "
             +:+ Product.name r +:+ "."))
    | None =>
        (db, Ok ("Product with ID " +:+ pretty (Npos product_id)
                 +:+ " does not exist."))
    end.
Proof.
  unfold increment_view_count, Product_objects_get, Product_save_view_count.
  unfold_M.
  destruct (products db !! product_id) as [r|] eqn:Hr; [|done].
  cbn. case_bool_decide; cbn.
  all: f_equal; f_equal; apply map_eq; intros j;
    destruct (decide (j = product_id)) as [->|Hj];
    [by rewrite lookup_alter_eq, lookup_insert_eq, Hr
    |by rewrite lookup_alter_ne, lookup_insert_ne].
Qed.

(** X1.  [increment_view_count] never raises.  For a stored product it adds
    one to [view_count] of that row and changes no other column of it:
    neither [updated_at], nor the slug, nor the cached statistics.  For a
    key that names no product it changes nothing.  Either way no other
    row and no other table is touched, and the message says which case
    it was. *)
Theorem increment_view_count_only_counts (product_id : positive)
    (db : Store) :
  let db' := (increment_view_count product_id db).1 in
  retailer_prices db' = retailer_prices db
  ∧ price_history db' = price_history db
  ∧ scraper_configs db' = scraper_configs db
  ∧ scraper_runs db' = scraper_runs db
  ∧ log db' = log db
  ∧ (∀ j, j ≠ product_id → products db' !! j = products db !! j)
  ∧ match products db !! product_id with
    | Some r =>
        (increment_view_count product_id db).2
        = Ok ("Incremented view count for product "
              +:+ Product.name r +:+ ".")
        ∧ ∃ r', products db' !! product_id = Some r'
                ∧ Product.view_count r' = (Product.view_count r + 1)%nat
                ∧ Product_set_view_count (Product.view_count r) r' = r
    | None =>
        increment_view_count product_id db
        = (db, Ok ("Product with ID " +:+ pretty (Npos product_id)
                   +:+ " does not exist."))
    end.
Proof.
  rewrite increment_view_count_run.
  destruct (products db !! product_id) as [r|] eqn:Hr.
  - cbn. repeat (split; [reflexivity|]).
    split; [intros j Hj; by apply lookup_insert_ne|].
    split; [reflexivity|]. eexists. split; [apply lookup_insert_eq|].
    split; [reflexivity|]. by destruct r.
  - cbn. repeat (split; [reflexivity|]). by split.
Qed.
End view_count.

(** ** Consistency is kept *)

Section consistency.
Context `{Django}.

Lemma collides_sym (a b : RetailerProductPrice.row) :
  RetailerProductPrice.collides a b = RetailerProductPrice.collides b a.
Proof.
  assert (∀ o o' : option positive,
            match o, o' with
            | Some x, Some y => bool_decide (x = y)
            | _, _ => false
            end
            = match o', o with
              | Some x, Some y => bool_decide (x = y)
              | _, _ => false
              end) as Hopt.
  { intros [x|] [y|]; try done. apply bool_decide_ext. split; congruence. }
  unfold RetailerProductPrice.collides. f_equal.
  - apply bool_decide_ext. split; congruence.
  - f_equal; apply Hopt.
Qed.

Lemma consistent_empty : consistent empty_store.
Proof.
  repeat split; intros *; cbn; rewrite ?lookup_empty; done.
Qed.

Lemma Product_save_consistent now self db :
  consistent db → consistent (Product_save now self db).1.
Proof.
  intros (Hsettled & Hslugs & Hsound & Hunique).
  destruct (Product_save_cases now self db) as [[Hfree ->]|[_ ->]];
    [|done].
  cbn [fst]. set (k := product_key self db) in *.
  set (q := Product_stored now self db).
  split; [|split; [|split]].
  - intros j r. cbn. rewrite lookup_insert. case_decide as Hj.
    + intros [= <-]. subst j. split; [apply Product_stored_pk|].
      apply Product_stored_slug_settled.
    + apply Hsettled.
  - intros i j r r'. cbn. rewrite !lookup_insert.
    repeat case_decide; subst.
    + done.
    + intros [= <-] Hr' Hslug. unfold q in Hslug.
      rewrite Product_stored_slug in Hslug.
      destruct (Hfree j r' Hr') as [->|Hne]; [done|]. by destruct Hne.
    + intros Hr [= <-] Hslug. unfold q in Hslug.
      rewrite Product_stored_slug in Hslug.
      destruct (Hfree i r Hr) as [->|Hne]; [done|]. by destruct Hne.
    + apply Hslugs.
  - intros j r Hr. destruct (Hsound j r Hr) as [Hpk Hp].
    split; [done|]. cbn. rewrite lookup_insert. case_decide; [eauto|done].
  - exact Hunique.
Qed.

Lemma update_price_stats_consistent now self db :
  consistent db → consistent (Product_update_price_stats now self db).1.
Proof.
  intros Hdb. destruct (available_prices self db) as [|p ps] eqn:Hprices.
  - by rewrite update_price_stats_nil.
  - rewrite (update_price_stats_cons _ _ _ p ps) by done.
    by apply Product_save_consistent.
Qed.

Lemma Model_save_price_consistent now self db :
  consistent db → consistent (Model_save_RetailerProductPrice now self db).1.
Proof.
  intros (Hsettled & Hslugs & Hsound & Hunique).
  destruct (Model_save_RetailerProductPrice now self db) as [db' res] eqn:Hrun.
  apply Model_save_price_inv in Hrun
    as [(e & -> & ->)|(pid & Hpid & Hprod & Hfree & -> & ->)]; [done|].
  cbn [fst]. set (k := price_key self db) in *.
  set (row := price_row now self pid db) in *.
  split; [exact Hsettled|]. split; [exact Hslugs|]. split.
  - intros j r. cbn. rewrite lookup_insert. case_decide as Hj.
    + intros [= <-]. subst j. split; [reflexivity|exact Hprod].
    + apply Hsound.
  - intros i j r r'. cbn. rewrite !lookup_insert.
    repeat case_decide; subst.
    + done.
    + intros [= <-] Hr' Hc. rewrite collides_sym in Hc.
      destruct (Hfree j r' Hr') as [->|Hno]; [done|].
      fold row in Hno. congruence.
    + intros Hr [= <-] Hc.
      destruct (Hfree i r Hr) as [->|Hno]; [done|].
      fold row in Hno. congruence.
    + apply Hunique.
Qed.

Lemma save_consistent now self db :
  consistent db → consistent (RetailerProductPrice_save now self db).1.
Proof.
  intros Hdb. rewrite save_unfold.
  assert (∀ c, consistent (save_tail now c db).1) as Htail.
  { intros c. unfold save_tail. unfold_M.
    pose proof (Model_save_price_consistent now c db Hdb) as Hmid.
    destruct (Model_save_RetailerProductPrice now c db) as [db1 [o|e]];
      [|exact Hmid].
    pose proof (update_price_stats_consistent now
                  (RetailerProductPrice.product o) db1 Hmid) as Hend.
    by destruct (Product_update_price_stats now _ db1) as [db2 [q|e]]. }
  destruct (RetailerProductPrice.pk self) as [k|]; [|apply Htail].
  destruct (retailer_prices db !! k); [apply Htail|exact Hdb].
Qed.

(** A loop keeps what its body keeps. *)
Lemma for_each_keeps {A} (I : Store → Prop) (body : A → M unit) xs db :
  (∀ x db, I db → I (body x db).1) → I db → I (for_each body xs db).1.
Proof.
  intros Hbody. revert db. induction xs as [|x xs IH]; intros db Hdb.
  - exact Hdb.
  - cbn [for_each]. unfold_M. specialize (Hbody x db Hdb).
    destruct (body x db) as [db' [[]|e]]; [by apply IH|exact Hbody].
Qed.

Lemma update_product_prices_consistent now db :
  consistent db → consistent (update_product_prices now db).1.
Proof.
  intros Hdb. unfold update_product_prices. unfold_M.
  match goal with
  | |- context [for_each ?body ?xs db] =>
      pose proof (for_each_keeps consistent body xs db) as Hloop;
      destruct (for_each body xs db) as [db' [[]|e]]
  end; cbn [fst] in *; apply Hloop; try done.
  all: intros p db0 Hdb0;
    pose proof (update_price_stats_consistent now p db0 Hdb0);
    by destruct (Product_update_price_stats now p db0) as [? [?|?]].
Qed.

Lemma increment_view_count_consistent product_id db :
  consistent db → consistent (increment_view_count product_id db).1.
Proof.
  intros (Hsettled & Hslugs & Hsound & Hunique).
  rewrite increment_view_count_run.
  destruct (products db !! product_id) as [r|] eqn:Hr; [|done].
  cbn [fst]. split; [|split; [|split]].
  - intros j q. cbn. rewrite lookup_insert. case_decide as Hj.
    + intros [= <-]. subst j. apply (Hsettled product_id r Hr).
    + apply Hsettled.
  - intros i j q q'. cbn. rewrite !lookup_insert.
    repeat case_decide; subst.
    + done.
    + intros [= <-] Hq'. cbn. intros Hs. by apply (Hslugs _ _ r q').
    + intros Hq [= <-]. cbn. intros Hs. by apply (Hslugs _ _ q r).
    + apply Hslugs.
  - intros j q Hq. destruct (Hsound j q Hq) as [Hpk Hp].
    split; [done|]. cbn. rewrite lookup_insert. case_decide; [eauto|done].
  - exact Hunique.
Qed.

Lemma step_consistent db db' : step db db' → consistent db → consistent db'.
Proof.
  intros [] Hdb.
  - by apply Product_save_consistent.
  - by apply update_price_stats_consistent.
  - by apply save_consistent.
  - by apply update_product_prices_consistent.
  - by apply increment_view_count_consistent.
  - done.
  - unfold ScraperConfig_save. by case_bool_decide.
  - rewrite run_scraper_run.
    by destruct (ScraperConfig.is_active <$> _) as [[|]|].
Qed.

End consistency.

(** ** Saving a product, continued *)

Section product_save_more.
Context `{Django}.
Import Product.


(** [Product.save] refuses a slug that another product carries: it
    raises [IntegrityError] and writes nothing. *)
Lemma Product_save_slug_taken now self db j r :
  products db !! j = Some r →
  product_key self db ≠ j →
  slug r = saved_slug self →
  Product_save now self db = (db, Raise IntegrityError).
Proof.
  intros Hr Hkey Hslug. apply Product_save_raises.
  intros Hfree. destruct (Hfree j r Hr) as [Hj|Hne]; [by subst|].
  by apply Hne.
Qed.

(** X4.  Two new products with the same name and no slug of their own: the
    first is saved, the second is refused with [IntegrityError] and
    leaves the store as the first one left it.  The same holds for two
    new products given the same slug. *)
Theorem Product_save_same_name_refused (now now' : Z) (a b : Product.t)
    (db db1 : Store) (a' : Product.t) :
  pk b = None →
  saved_slug a = saved_slug b →
  Product_save now a db = (db1, Ok a') →
  Product_save now' b db1 = (db1, Raise IntegrityError).
Proof.
  intros Hb Hsame Hsave.
  destruct (Product_save_cases now a db) as [[Hfree Hrun]|[_ Hrun]];
    rewrite Hrun in Hsave; [|done].
  injection Hsave as <- <-.
  apply Product_save_raises. intros Hfree'.
  set (k := product_key a db) in *.
  destruct (Hfree' k (Product_stored now a db)) as [Hk|Hne].
  - cbn. apply lookup_insert_eq.
  - unfold product_key in Hk. rewrite Hb in Hk. cbn in Hk.
    pose proof (is_fresh (dom (<[k := Product_stored now a db]> (products db))))
      as Hfresh.
    rewrite <- Hk in Hfresh. apply Hfresh, elem_of_dom.
    rewrite lookup_insert_eq. eauto.
  - apply Hne. rewrite Product_stored_slug. exact Hsame.
Qed.
End product_save_more.

(** ** The pass over all products *)

Section pass.
Context `{Django}.
Import Product.

(** In a consistent store the slug of a stored row is free for that
    row, so recomputing on it is accepted. *)
Lemma stored_slug_free db k r :
  consistent db → products db !! k = Some r → slug_free r db.
Proof.
  intros (Hsettled & Hslugs & _) Hr.
  destruct (Hsettled k r Hr) as [Hk Hslug].
  assert (saved_slug r = slug r) as Hsaved.
  { unfold saved_slug. case_bool_decide as Hs; [|done]. by rewrite Hs, Hslug. }
  intros j r' Hr'. unfold product_key. rewrite Hk, Hsaved. cbn.
  destruct (decide (j = k)) as [->|Hj]; [by left|]. right.
  intros Heq. apply Hj. by apply (Hslugs j k r' r).
Qed.

(** One recomputation on a stored row of a consistent store. *)
Lemma recompute_stored now db k r :
  consistent db → products db !! k = Some r →
  ∃ db' r',
    Product_update_price_stats now r db = (db', Ok r')
    ∧ retailer_prices db' = retailer_prices db
    ∧ products db' !! k = Some r'
    ∧ stats r' = reconciled_stats r db
    ∧ (∀ j, j ≠ k → products db' !! j = products db !! j).
Proof.
  intros Hdb Hr. pose proof (stored_slug_free db k r Hdb Hr) as Hfree.
  destruct Hdb as (Hsettled & _). destruct (Hsettled k r Hr) as [Hk Hslug].
  rewrite update_price_stats_ok by done. unfold reconciled_stats.
  destruct (available_prices r db) as [|p ps].
  - exists db, r. by repeat split.
  - cbn zeta. unfold product_key. rewrite Hk. cbn.
    eexists _, _. split; [reflexivity|]. split; [reflexivity|].
    split; [cbn; apply lookup_insert_eq|].
    split; [by rewrite Product_stored_stats|].
    intros j Hj. cbn. by apply lookup_insert_ne.
Qed.

(** The loop, by induction on the rows still to visit. *)
Lemma for_each_reconciles now (rows : list Product.t) db :
  consistent db →
  NoDup (pk <$> rows) →
  (∀ r, r ∈ rows → ∃ k, pk r = Some k ∧ products db !! k = Some r) →
  ∃ db',
    for_each (λ product, _ ← Product_update_price_stats now product; mret tt)
             rows db = (db', Ok tt)
    ∧ consistent db'
    ∧ retailer_prices db' = retailer_prices db
    ∧ (∀ k, Some k ∉ pk <$> rows → products db' !! k = products db !! k)
    ∧ (∀ r k, r ∈ rows → pk r = Some k →
              ∃ r', products db' !! k = Some r'
                    ∧ stats r' = reconciled_stats r db).
Proof.
  revert db. induction rows as [|r rows IH]; intros db Hdb Hnodup Hsync.
  - exists db. split; [reflexivity|]. split; [exact Hdb|].
    split; [reflexivity|]. split; [done|].
    intros r k Hr. by apply elem_of_nil in Hr.
  - destruct (Hsync r) as (k & Hk & Hrow); [apply list_elem_of_here|].
    rewrite fmap_cons in Hnodup. apply NoDup_cons in Hnodup as [Hfirst Hrest].
    destruct (recompute_stored now db k r Hdb Hrow)
      as (db1 & r1 & Hrun & Hobs1 & Hrow1 & Hstats1 & Hothers1).
    pose proof (update_price_stats_consistent now r db Hdb) as Hdb1.
    rewrite Hrun in Hdb1. cbn [fst] in Hdb1.
    destruct (IH db1 Hdb1 Hrest) as (db' & Hloop & Hdb' & Hobs' & Hout & Hin).
    { intros r' Hr'. destruct (Hsync r') as (k' & Hk' & Hrow');
        [by apply list_elem_of_further|].
      exists k'. split; [done|]. rewrite Hothers1; [done|].
      intros ->. apply Hfirst. rewrite Hk, <- Hk'.
      by apply list_elem_of_fmap_2. }
    exists db'. split.
    { cbn [for_each]. unfold_M. by rewrite Hrun. }
    split; [exact Hdb'|]. split; [congruence|]. split.
    { intros j Hj. rewrite fmap_cons in Hj.
      apply not_elem_of_cons in Hj as [Hjk Hj].
      rewrite Hout by done. apply Hothers1. rewrite Hk in Hjk. congruence. }
    intros r' k' Hr' Hk'. apply elem_of_cons in Hr' as [->|Hr'].
    + replace k' with k by congruence.
      exists r1. split; [|done]. rewrite Hout; [done|]. by rewrite <- Hk.
    + destruct (Hin r' k' Hr' Hk') as (r'' & Hrow'' & Hstats'').
      exists r''. split; [done|]. rewrite Hstats''.
      unfold reconciled_stats.
      by rewrite (available_prices_ext r' r' db1 db).
Qed.

(** The whole pass, from the loop. *)
Lemma update_product_prices_pass (now : Z) (db : Store) :
  consistent db →
  ∃ db',
    update_product_prices now db
    = (db', Ok ("Updated price statistics for "
                +:+ pretty (size (products db)) +:+ " products."))
    ∧ consistent db'
    ∧ stats_only db db'
    ∧ ∀ k r, products db !! k = Some r →
             ∃ r', products db' !! k = Some r'
                   ∧ stats r' = reconciled_stats r db.
Proof.
  intros Hdb.
  pose proof (update_product_prices_stats_only now db (proj1 Hdb)) as Honly.
  destruct Hdb as (Hsettled & Hrest).
  destruct (for_each_reconciles now (map_to_list (products db)).*2 db)
    as (db' & Hloop & Hdb' & _ & _ & Hin).
  { by split. }
  { rewrite settled_keys by done.
    apply (NoDup_fmap_2 _), NoDup_fst_map_to_list. }
  { intros r Hr. apply list_elem_of_fmap in Hr as ([k r'] & -> & Hin).
    apply elem_of_map_to_list in Hin. cbn.
    destruct (Hsettled k r' Hin) as [Hk _]. by exists k. }
  exists db'. unfold update_product_prices in *. unfold_M.
  rewrite Hloop in *. cbn [fst] in Honly.
  split.
  { rewrite length_fmap, length_map_to_list. reflexivity. }
  split; [exact Hdb'|]. split; [exact Honly|].
  intros k r Hr. destruct (Hsettled k r Hr) as [Hk _].
  apply (Hin r k); [|done].
  apply list_elem_of_fmap. exists (k, r). split; [done|].
  by apply elem_of_map_to_list.
Qed.


(** X6.  A second pass changes no cached statistic. *)
Theorem update_product_prices_twice (now now' : Z) (db : Store) :
  consistent db →
  ∃ db1 db2 message,
    update_product_prices now db = (db1, Ok message)
    ∧ update_product_prices now' db1 = (db2, Ok message)
    ∧ ∀ k, stats <$> products db2 !! k = stats <$> products db1 !! k.
Proof.
  intros Hdb.
  destruct (update_product_prices_pass now db Hdb)
    as (db1 & Hrun1 & Hdb1 & Honly1 & Hstats1).
  destruct (update_product_prices_pass now' db1 Hdb1)
    as (db2 & Hrun2 & Hdb2 & Honly2 & Hstats2).
  destruct Honly1 as (Hobs1 & _ & _ & _ & _ & Hrows1).
  destruct Honly2 as (_ & _ & _ & _ & _ & Hrows2).
  assert (size (products db1) = size (products db)) as Hsize.
  { rewrite <- !size_dom. f_equal. apply set_eq. intros k.
    rewrite !elem_of_dom. specialize (Hrows1 k).
    destruct (products db !! k) as [r|].
    - destruct Hrows1 as (r' & -> & _). split; eauto.
    - by rewrite Hrows1. }
  eexists db1, db2, _. split; [exact Hrun1|].
  split; [by rewrite Hrun2, Hsize|].
  intros k. specialize (Hrows1 k). specialize (Hrows2 k).
  destruct (products db !! k) as [r|] eqn:Hr.
  - destruct Hrows1 as (r1 & Hr1 & Hsame1). rewrite Hr1 in *.
    destruct (Hstats2 k r1 Hr1) as (r2 & Hr2 & Hstats).
    destruct (Hstats1 k r Hr) as (r1' & Hr1' & Hstats').
    replace r1' with r1 in * by congruence.
    rewrite Hr2. cbn. f_equal. rewrite Hstats.
    unfold reconciled_stats in *.
    assert (pk r1 = pk r) as Hpk.
    { unfold same_but_stats in Hsame1. rewrite <- Hsame1. by destruct r1. }
    rewrite (available_prices_ext r1 r db1 db) by done.
    destruct (available_prices r db); [done|by rewrite Hstats'].
  - rewrite Hrows1 in *. by rewrite Hrows2.
Qed.
End pass.

(** ** A view counted between a fetch and a recomputation *)

Section stale.
Context `{Django}.
Import Product.

(** X7.  [update_price_stats] saves the whole object.  When a product is
    fetched, a view of it is counted, and the statistics are then
    recomputed on the object fetched before, the recomputation writes
    the old [view_count] back: the view is lost.  (It survives when the
    product has no available observation, since nothing is saved then.) *)
Theorem stale_object_loses_view (now : Z) (db : Store) (k : positive)
    (r : Product.t) :
  consistent db →
  products db !! k = Some r →
  ∃ db1 r1 db2 r2,
    (increment_view_count k db).1 = db1
    ∧ products db1 !! k = Some r1
    ∧ view_count r1 = (view_count r + 1)%nat
    ∧ Product_update_price_stats now r db1 = (db2, Ok r2)
    ∧ ∃ r2', products db2 !! k = Some r2'
             ∧ (available_prices r db ≠ [] → view_count r2' = view_count r)
             ∧ (available_prices r db = [] → r2' = r1).
Proof.
  intros Hdb Hr.
  pose proof (stored_slug_free db k r Hdb Hr) as Hfree.
  destruct Hdb as (Hsettled & _). destruct (Hsettled k r Hr) as [Hk _].
  rewrite increment_view_count_run, Hr. cbn [fst].
  set (r1 := Product_set_view_count (view_count r + 1) r).
  set (db1 := set_products (<[k := r1]> (products db)) db).
  assert (slug_free r db1) as Hfree1.
  { intros j r'. cbn. rewrite lookup_insert. unfold product_key. rewrite Hk.
    cbn. case_decide as Hj; [by left|]. intros Hr'.
    destruct (Hfree j r' Hr') as [Hjk|Hne]; [|by right].
    unfold product_key in Hjk. rewrite Hk in Hjk. cbn in Hjk. congruence. }
  assert (available_prices r db1 = available_prices r db) as Hprices
    by (by apply available_prices_ext).
  exists db1, r1. rewrite update_price_stats_ok, Hprices by done.
  destruct (available_prices r db) as [|p ps].
  - exists db1, r. split; [done|]. split; [cbn; apply lookup_insert_eq|].
    split; [done|]. split; [done|]. exists r1.
    split; [cbn; apply lookup_insert_eq|]. by split.
  - cbn zeta. eexists _, _. split; [done|].
    split; [cbn; apply lookup_insert_eq|]. split; [done|].
    split; [reflexivity|]. eexists.
    split; [cbn; unfold product_key; rewrite Hk; apply lookup_insert_eq|].
    split; [|done]. intros _. unfold Product_stored. by case_bool_decide.
Qed.
End stale.

(** ** What no save and no task does *)

Section never.
Context `{Django}.

Lemma step_adds_no_history db db' :
  step db db' →
  price_history db' ⊆ price_history db ∧ scraper_runs db' = scraper_runs db.
Proof.
  destruct 1 as [now self d|now self d|now self d|now d|product_id d|now d
                |pk self d|config_id d].
  - destruct (Product_save_cases now self d) as [[_ ->]|[_ ->]]; by split.
  - pose proof (update_price_stats_frame now self d)
      as (_ & -> & [_ ->] & _). by split.
  - pose proof (save_frame now self d) as (-> & [_ ->] & _). by split.
  - unfold update_product_prices. unfold_M.
    match goal with
    | |- context [for_each ?body ?xs d] =>
        pose proof (for_each_keeps
                      (λ d', price_history d' = price_history d
                             ∧ scraper_runs d' = scraper_runs d)
                      body xs d) as Hloop;
        destruct (for_each body xs d) as [d1 [[]|e]]
    end; cbn [fst] in *.
    all: destruct Hloop as [-> ->]; [|done|done].
    all: intros p d2 [Hh Hr];
      pose proof (update_price_stats_frame now p d2) as (_ & Hh' & [_ Hr'] & _);
      destruct (Product_update_price_stats now p d2) as [? [?|?]];
      cbn [fst] in *; unfold same_history in *; split; congruence.
  - rewrite increment_view_count_run.
    by destruct (products d !! product_id).
  - split; [|reflexivity]. cbn. apply map_subseteq_difference_l. done.
  - unfold ScraperConfig_save. by case_bool_decide.
  - rewrite run_scraper_run.
    by destruct (ScraperConfig.is_active <$> _) as [[|]|].
Qed.

(** X8.  No sequence of saves and tasks creates a price-history entry or a
    scraper run: in every store they lead to from the empty one, both
    tables are empty, and the price-history view of any product returns
    nothing. *)
Theorem reachable_no_history (db : Store) :
  reachable db →
  price_history db = ∅ ∧ scraper_runs db = ∅
  ∧ ∀ product_slug, ProductPriceHistoryView_get_queryset product_slug db = [].
Proof.
  intros Hreach.
  assert (price_history db = ∅ ∧ scraper_runs db = ∅) as [Hh Hr].
  { revert db Hreach.
    apply (rtc_ind_r (R := step)
             (λ d, price_history d = ∅ ∧ scraper_runs d = ∅) empty_store);
      [done|].
    intros d d' _ Hstep [Hh Hr].
    destruct (step_adds_no_history d d' Hstep) as [Hsub ->].
    split; [|done]. rewrite Hh in Hsub.
    apply map_empty. intros i. apply eq_None_not_Some. intros [x Hx].
    eapply lookup_weaken in Hx; [|exact Hsub]. by rewrite lookup_empty in Hx. }
  split; [done|]. split; [done|].
  intros s. unfold ProductPriceHistoryView_get_queryset.
  by rewrite Hh, map_to_list_empty.
Qed.
End never.

(** ** When an observation is refused *)

Section refusals.
Context `{Django}.
Import RetailerProductPrice.

Lemma compared_sources self db :
  retailer (compared self db) = retailer self
  ∧ small_retailer (compared self db) = small_retailer self.
Proof.
  unfold compared. destruct (pk self) as [k|]; [|done].
  destruct (retailer_prices db !! k); [|done].
  by case_bool_decide.
Qed.

Lemma save_tail_or_missing now self db :
  row_known self db →
  RetailerProductPrice_save now self db = save_tail now (compared self db) db.
Proof.
  intros Hknown. rewrite save_unfold. unfold row_known, compared in *.
  destruct (pk self) as [k|]; [|done].
  destruct (Hknown k eq_refl) as [old Hold]. by rewrite Hold.
Qed.

(** X9.  [RetailerProductPrice.save] raises, and leaves the store untouched,
    in four cases: the object carries a key that names no row
    ([DoesNotExist]); its product has no key ([ValueError]); its product
    key names no product row ([IntegrityError]); another row has the
    same product and the same retailer, or the same product and the same
    small retailer ([IntegrityError]). *)
Theorem save_refuses_before_writing (now : Z) (self : obj) (db : Store) :
  (∀ k, pk self = Some k → retailer_prices db !! k = None →
        RetailerProductPrice_save now self db = (db, Raise DoesNotExist))
  ∧ (row_known self db → Product.pk (product self) = None →
     RetailerProductPrice_save now self db = (db, Raise ValueError))
  ∧ (row_known self db →
     ∀ pid, Product.pk (product self) = Some pid →
            products db !! pid = None →
            RetailerProductPrice_save now self db = (db, Raise IntegrityError))
  ∧ (row_known self db →
     ∀ pid j stored,
       Product.pk (product self) = Some pid →
       retailer_prices db !! j = Some stored →
       pk self ≠ Some j →
       collides stored (set_product pid self) = true →
       RetailerProductPrice_save now self db = (db, Raise IntegrityError)).
Proof.
  split; [|split; [|split]].
  - intros k Hk Hnone. rewrite save_unfold, Hk. by rewrite Hnone.
  - intros Hknown Hnone. rewrite save_tail_or_missing by done.
    unfold save_tail, Model_save_RetailerProductPrice. unfold_M.
    by rewrite compared_product, Hnone.
  - intros Hknown pid Hpid Hnone. rewrite save_tail_or_missing by done.
    unfold save_tail, Model_save_RetailerProductPrice. unfold_M.
    rewrite compared_product, Hpid. by rewrite bool_decide_eq_true_2.
  - intros Hknown pid j stored Hpid Hstored Hj Hcollides.
    rewrite save_tail_or_missing by done.
    unfold save_tail, Model_save_RetailerProductPrice. unfold_M.
    rewrite compared_product, Hpid.
    destruct (bool_decide (products db !! pid = None)); [done|].
    cbn zeta. rewrite bool_decide_eq_false_2; [done|].
    intros Hall. specialize (Hall j stored Hstored). cbn in Hall.
    destruct Hall as [Hkey|Hfree].
    + rewrite compared_pk in Hkey.
      destruct (pk self) as [k|] eqn:Hk; cbn in Hkey; [congruence|].
      pose proof (is_fresh (dom (retailer_prices db))) as Hfresh.
      rewrite <- Hkey in Hfresh. apply Hfresh, elem_of_dom. eauto.
    + destruct (compared_sources self db) as [Hr Hs].
      rewrite (collides_ext _ _ (set_product pid self)) in Hfree
        by (cbn; done).
      congruence.
Qed.
End refusals.

(** ** The retention sweep, continued *)

Section sweeps.
Import PriceHistory.

(** X10.  Sweeps compose and only remove.  A sweep followed by a later sweep
    leaves the store a single sweep at the later time leaves; the swept
    table is part of the table before; and the number reported is the
    number of rows that went. *)
Theorem clean_old_price_data_composes (now1 now2 : Z) (db : Store) :
  now1 ≤ now2 →
  (clean_old_price_data now2 (clean_old_price_data now1 db).1).1
  = (clean_old_price_data now2 db).1
  ∧ price_history (clean_old_price_data now1 db).1 ⊆ price_history db
  ∧ size (price_history db)
    = (size (price_history (clean_old_price_data now1 db).1)
       + size (filter (λ kv, (timestamp kv.2 < now1 - timedelta_days 365)%Z)
                      (price_history db)))%nat.
Proof.
  intros Hle. rewrite !clean_old_price_data_run. cbn zeta. cbn [fst].
  split; [|split].
  - unfold set_price_history. cbn. f_equal.
    apply map_eq. intros j. apply option_eq. intros h.
    rewrite (lookup_swept now2 db j h).
    rewrite lookup_difference_Some, map_lookup_filter_None. cbn.
    rewrite (lookup_swept now1 db j h). split.
    + intros [[Hj Hnew1] [Hnone|Hnot]].
      * assert ((price_history db
                 ∖ filter (λ kv, timestamp kv.2 < now1 - timedelta_days 365)
                          (price_history db)) !! j = Some h) as Hsome
          by (by apply lookup_swept).
        congruence.
      * split; [done|]. apply Hnot. by apply lookup_swept.
    + intros [Hj Hnew2]. split; [split; [done|lia]|]. right.
      intros h' Hh'. apply lookup_swept in Hh' as [Hj' _].
      by replace h' with h by congruence.
  - cbn. apply map_subseteq_difference_l. done.
  - cbn. set (old := filter _ (price_history db)).
    assert (old ⊆ price_history db) as Hsub by apply map_filter_subseteq.
    rewrite <- (map_difference_union old (price_history db) Hsub) at 1.
    rewrite map_size_disj_union by (by apply map_disjoint_difference_r1).
    lia.
Qed.
End sweeps.

(** ** The price history of a product *)

Section history_view.
Import PriceHistory.

#[local] Instance newer_total : Total newer.
Proof. intros a b. unfold newer. lia. Qed.

#[local] Instance newer_trans : Transitive newer.
Proof. intros a b c. unfold newer. lia. Qed.

(** The rows the query selects and the order it puts them in. *)
Lemma price_history_view_rows (product_slug : string)
    (db : Store) :
  let entries := ProductPriceHistoryView_get_queryset product_slug db in
  StronglySorted newer entries
  ∧ NoDup entries
  ∧ (∀ k h, (k, h) ∈ entries ↔
            price_history db !! k = Some h
            ∧ ∃ p, products db !! product h = Some p
                   ∧ Product.slug p = product_slug)
  ∧ ((∀ k p, products db !! k = Some p → Product.slug p ≠ product_slug) →
     entries = []).
Proof.
  intros entries. subst entries. unfold ProductPriceHistoryView_get_queryset.
  set (rows := filter _ (map_to_list (price_history db))).
  assert (∀ k h, (k, h) ∈ rows ↔
                 price_history db !! k = Some h
                 ∧ ∃ p, products db !! product h = Some p
                        ∧ Product.slug p = product_slug) as Hrows.
  { intros k h. unfold rows. rewrite list_elem_of_filter, elem_of_map_to_list.
    cbn. split.
    - intros [Hslug Hk]. split; [done|].
      destruct (products db !! product h) as [p|]; [|done].
      exists p. split; [done|]. by injection Hslug.
    - intros [Hk (p & Hp & Hslug)]. split; [|done]. by rewrite Hp, <- Hslug. }
  split; [apply (StronglySorted_merge_sort _)|].
  split.
  { rewrite merge_sort_Permutation. apply NoDup_filter, NoDup_map_to_list. }
  split.
  { intros k h. rewrite merge_sort_Permutation. apply Hrows. }
  intros Hnone. apply Permutation_nil_r. rewrite merge_sort_Permutation.
  destruct rows as [|[k h] rows']; [done|].
  destruct (proj1 (Hrows k h)) as [_ (p & Hp & Hslug)];
    [apply list_elem_of_here|].
  by destruct (Hnone _ p Hp).
Qed.

(** X11.  [ProductPriceHistoryView.get_queryset] returns, each once and the
    newest first, exactly the history rows whose product carries the
    slug asked for; for a slug no product carries it returns nothing. *)
Theorem price_history_view_newest_first (product_slug : string)
    (db : Store) :
  let entries := ProductPriceHistoryView_get_queryset product_slug db in
  StronglySorted newer entries
  ∧ NoDup entries
  ∧ (∀ k h, (k, h) ∈ entries ↔
            price_history db !! k = Some h
            ∧ ∃ p, products db !! product h = Some p
                   ∧ Product.slug p = product_slug)
  ∧ ((∀ k p, products db !! k = Some p → Product.slug p ≠ product_slug) →
     entries = []).
Proof. exact (price_history_view_rows product_slug db). Qed.

(** X12.  After a sweep the view shows what it showed before, less the entries
    older than a year, still newest first. *)
Theorem price_history_view_after_sweep (now : Z) (product_slug : string)
    (db : Store) :
  let swept := (clean_old_price_data now db).1 in
  ProductPriceHistoryView_get_queryset product_slug swept
  ≡ₚ filter (λ kv, ¬ timestamp kv.2 < now - timedelta_days 365)
            (ProductPriceHistoryView_get_queryset product_slug db)
  ∧ StronglySorted newer
      (ProductPriceHistoryView_get_queryset product_slug swept).
Proof.
  intros swept.
  destruct (price_history_view_rows product_slug swept)
    as (Hsorted & Hnodup & Hin & _).
  destruct (price_history_view_rows product_slug db)
    as (_ & Hnodup' & Hin' & _).
  split; [|exact Hsorted].
  apply NoDup_Permutation; [done|by apply NoDup_filter|].
  intros [k h]. rewrite list_elem_of_filter, Hin, Hin'. cbn.
  unfold swept. rewrite clean_old_price_data_run. cbn.
  rewrite lookup_swept. tauto.
Qed.
End history_view.

(** ** Naming the source of a price *)

Section naming.
Context `{Django}.
Variable retailer_name : positive → string.
Variable business_name : positive → string.
Import RetailerProductPrice.

(** X13.  The renderings agree on the source they name.  The admin column
    shows what the serializer returns, and "Unknown" where it returns
    null.  [__str__] of an observation names the same source as its
    admin column; it raises exactly when neither source is set.  When
    both are set, all of them name the retailer and none the small
    retailer. *)
Theorem source_names_agree (entry : PriceHistory.t) (self : obj) :
  PriceHistoryAdmin_get_retailer_name retailer_name business_name entry
  = default "Unknown"
      (PriceHistorySerializer_get_retailer_name retailer_name business_name
         entry)
  ∧ (PriceHistorySerializer_get_retailer_name retailer_name business_name
       entry = None
     ↔ PriceHistory.retailer entry = None
       ∧ PriceHistory.small_retailer entry = None)
  ∧ (RetailerProductPrice_str retailer_name business_name self
     = AttributeError
     ↔ retailer self = None ∧ small_retailer self = None)
  ∧ (is_Some (retailer self) ∨ is_Some (small_retailer self) →
     RetailerProductPrice_str retailer_name business_name self
     = Str (Product.name (product self) +:+ " - "
            +:+ RetailerProductPriceAdmin_get_retailer_name retailer_name
                  business_name self
            +:+ ": " +:+ decimal_str (price self) +:+ " " +:+ currency self))
  ∧ (∀ r, retailer self = Some r →
          RetailerProductPriceAdmin_get_retailer_name retailer_name
            business_name self = retailer_name r)
  ∧ (∀ r, PriceHistory.retailer entry = Some r →
          PriceHistorySerializer_get_retailer_name retailer_name
            business_name entry = Some (retailer_name r)).
Proof.
  unfold PriceHistoryAdmin_get_retailer_name,
    PriceHistorySerializer_get_retailer_name, RetailerProductPrice_str,
    RetailerProductPriceAdmin_get_retailer_name.
  destruct (PriceHistory.retailer entry) as [r|],
    (PriceHistory.small_retailer entry) as [s|],
    (retailer self) as [r'|], (small_retailer self) as [s'|]; cbn.
  all: repeat split; try done; try (intros [? ?]; done).
  all: try (intros [[? ?]|[? ?]]; done).
  all: try (intros ? [= <-]; done).
Qed.

(** X14.  [save] takes an observation that names no source, and the object it
    returns cannot be printed: [__str__] raises. *)
Theorem sourceless_saved_not_printable (now : Z) (self : obj) (db : Store) :
  retailer self = None → small_retailer self = None →
  save_accepted now self db →
  ∃ db' self',
    RetailerProductPrice_save now self db = (db', Ok self')
    ∧ RetailerProductPrice_str retailer_name business_name self'
      = AttributeError
    ∧ RetailerProductPriceAdmin_get_retailer_name retailer_name
        business_name self' = "Unknown".
Proof.
  intros Hr Hs Hacc.
  destruct (save_accepted_run now self db Hacc) as (pid & _ & _ & Hrun).
  cbn zeta in Hrun. rewrite Hrun.
  destruct (compared_sources self db) as [Hr' Hs'].
  destruct (available_prices (product self) _) as [|p ps];
    eexists _, _; (split; [reflexivity|]);
    unfold RetailerProductPrice_str,
      RetailerProductPriceAdmin_get_retailer_name; cbn;
    by rewrite Hr', Hs', Hr, Hs.
Qed.
End naming.

(** ** Saving a scraper configuration *)

Section scraper_config.
Context `{Django}.
Import ScraperConfig.

(** X15.  [ScraperConfig.save] followed by [run_scraper].  When no other
    configuration carries the slug or the retailer, [save] stores the
    row, with a given slug kept and an empty one filled from the name,
    and changes nothing else.  [run_scraper] on the key then finds a
    configuration saved as active and does nothing at all; for one saved
    as inactive it logs one line that it was not found or not active. *)
Theorem ScraperConfig_save_then_run (pk : option positive)
    (self : ScraperConfig.t) (db : Store) :
  config_free pk self db →
  ∃ db' key stored,
    ScraperConfig_save pk self db = (db', Ok (key, stored))
    ∧ scraper_configs db' !! key = Some stored
    ∧ (pk = None → scraper_configs db !! key = None)
    ∧ (∀ k, pk = Some k → key = k)
    ∧ slug stored = saved_config_slug self
    ∧ (slug self ≠ "" → slug stored = slug self)
    ∧ is_active stored = is_active self
    ∧ (∀ j, j ≠ key → scraper_configs db' !! j = scraper_configs db !! j)
    ∧ products db' = products db
    ∧ retailer_prices db' = retailer_prices db
    ∧ scraper_runs db' = scraper_runs db
    ∧ log db' = log db
    ∧ (is_active self = true → run_scraper key db' = (db', Ok tt))
    ∧ (is_active self = false →
       run_scraper key db'
       = (set_log (log db' ++ ["Scraper configuration with ID "
                               +:+ pretty (Npos key)
                               +:+ " not found or not active."]) db',
          Ok tt)).
Proof.
  intros Hfree. unfold ScraperConfig_save.
  set (key := default (fresh (dom (scraper_configs db))) pk).
  set (stored := if bool_decide (slug self = "")
                 then ScraperConfig_set_slug (slugify (name self)) self
                 else self).
  assert (slug stored = saved_config_slug self) as Hslug.
  { unfold stored, saved_config_slug. by case_bool_decide. }
  assert (is_active stored = is_active self) as Hactive.
  { unfold stored. by case_bool_decide. }
  assert (retailer stored = retailer self) as Hretailer.
  { unfold stored. by case_bool_decide. }
  rewrite bool_decide_eq_true_2.
  2:{ unfold config_free in Hfree. fold key in Hfree.
      by rewrite Hslug, Hretailer. }
  exists (set_scraper_configs (<[key := stored]> (scraper_configs db)) db),
         key, stored.
  split; [reflexivity|]. split; [cbn; apply lookup_insert_eq|].
  split.
  { intros ->. subst key. cbn. apply not_elem_of_dom, is_fresh. }
  split; [by intros k ->|]. split; [exact Hslug|].
  split.
  { intros Hgiven. rewrite Hslug. unfold saved_config_slug.
    by rewrite bool_decide_eq_false_2. }
  split; [exact Hactive|].
  split; [intros j Hj; cbn; by apply lookup_insert_ne|].
  repeat (split; [reflexivity|]).
  split; intros Hflag; rewrite run_scraper_run; cbn;
    rewrite lookup_insert_eq; cbn; by rewrite Hactive, Hflag.
Qed.
End scraper_config.

(** ** Saving and unsaving a product *)

Section toggle.

Lemma elem_of_saved_rows user product acc k r :
  (k, r) ∈ saved_rows user product acc ↔
  saved_products acc !! k = Some r
  ∧ SavedProduct.user r = user ∧ SavedProduct.product r = product.
Proof.
  unfold saved_rows. rewrite list_elem_of_filter, elem_of_map_to_list.
  cbn. tauto.
Qed.

(** With at most one row per pair, the query returns at most one row. *)
Lemma saved_rows_unique user product acc :
  saved_unique acc →
  saved_rows user product acc = []
  ∨ ∃ k r, saved_rows user product acc = [(k, r)].
Proof.
  intros Hunique.
  assert (NoDup (saved_rows user product acc)) as Hnodup
    by apply NoDup_filter, NoDup_map_to_list.
  destruct (saved_rows user product acc) as [|[k r] [|[k' r'] rest]] eqn:Heq;
    [by left|right; by exists k, r|].
  assert ((k, r) ∈ saved_rows user product acc) as Hin
    by (rewrite Heq; apply list_elem_of_here).
  assert ((k', r') ∈ saved_rows user product acc) as Hin'
    by (rewrite Heq; apply list_elem_of_further, list_elem_of_here).
  apply elem_of_saved_rows in Hin as (Hk & Hu & Hp).
  apply elem_of_saved_rows in Hin' as (Hk' & Hu' & Hp').
  assert (k = k') as <- by (apply (Hunique k k' r r'); congruence).
  assert (r = r') as <- by congruence.
  apply NoDup_cons in Hnodup as [Hnotin _].
  destruct Hnotin. apply list_elem_of_here.
Qed.

(** One post, by the rows [get_or_create] finds. *)
Lemma toggle_post_run (now : Z) (user product_id : positive)
    (db : Store) (acc : Accounts) :
  (products db !! product_id = None →
   SavedProductToggleView_post now user product_id db acc = (acc, Http404))
  ∧ (is_Some (products db !! product_id) → saved_unique acc →
     ∃ acc' response,
       SavedProductToggleView_post now user product_id db acc
       = (acc', response)
       ∧ saved_unique acc'
       ∧ search_history acc' = search_history acc
       ∧ (is_saved user product_id acc' ↔ ¬ is_saved user product_id acc)
       ∧ (∀ u p, (u, p) ≠ (user, product_id) →
                 is_saved u p acc' ↔ is_saved u p acc)
       ∧ (is_saved user product_id acc →
          response = Response_200 "Product unsaved successfully.")
       ∧ (¬ is_saved user product_id acc →
          ∃ k, response
               = Response_201 (k, SavedProduct.mk user product_id now)
               ∧ saved_products acc !! k = None
               ∧ saved_products acc' !! k
                 = Some (SavedProduct.mk user product_id now))).
Proof.
  unfold SavedProductToggleView_post. split; [by intros ->|].
  intros [p ->] Hunique.
  destruct (saved_rows_unique user product_id acc Hunique)
    as [Hnone|(k & r & Hone)].
  - assert (¬ is_saved user product_id acc) as Hnot.
    { intros (k & r & Hk & Hu & Hp).
      assert ((k, r) ∈ saved_rows user product_id acc) as Hin
        by (by apply elem_of_saved_rows).
      rewrite Hnone in Hin. by apply elem_of_nil in Hin. }
    rewrite Hnone. set (key := fresh (dom (saved_products acc))).
    assert (saved_products acc !! key = None) as Hkey
      by apply not_elem_of_dom, is_fresh.
    eexists _, _. split; [reflexivity|]. split.
    { intros i j a b. cbn. rewrite !lookup_insert.
      repeat case_decide; subst; try done.
      - intros [= <-] Hb Hu Hp. destruct Hnot. by exists j, b.
      - intros Ha [= <-] Hu Hp. destruct Hnot. by exists i, a.
      - apply Hunique. }
    split; [reflexivity|]. split.
    { split; [done|]. intros _. exists key, (SavedProduct.mk user product_id now).
      cbn. by rewrite lookup_insert_eq. }
    split.
    { intros u q Hne. unfold is_saved. cbn. split.
      - intros (j & a & Hj & Hu & Hp). rewrite lookup_insert in Hj.
        case_decide; [|by exists j, a].
        injection Hj as <-. cbn in *. congruence.
      - intros (j & a & Hj & Hu & Hp). exists j, a.
        rewrite lookup_insert_ne; [done|]. intros <-. congruence. }
    split; [done|]. intros _. exists key. split; [done|]. split; [done|].
    cbn. apply lookup_insert_eq.
  - assert ((k, r) ∈ saved_rows user product_id acc) as Hin
      by (rewrite Hone; apply list_elem_of_here).
    apply elem_of_saved_rows in Hin as (Hk & Hu & Hp).
    assert (is_saved user product_id acc) as Hsaved by (by exists k, r).
    rewrite Hone. eexists _, _. split; [reflexivity|]. split.
    { intros i j a b. cbn. rewrite !lookup_delete_Some.
      intros [_ Ha] [_ Hb]. by apply Hunique. }
    split; [reflexivity|]. split.
    { split; [|done]. intros (j & a & Hj & Hu' & Hp'). cbn in Hj.
      apply lookup_delete_Some in Hj as [Hne Hj].
      destruct Hne. apply (Hunique k j r a); congruence. }
    split.
    { intros u q Hne. unfold is_saved. cbn. split.
      - intros (j & a & Hj & Hu' & Hp').
        apply lookup_delete_Some in Hj as [_ Hj]. by exists j, a.
      - intros (j & a & Hj & Hu' & Hp'). exists j, a.
        rewrite lookup_delete_ne; [done|]. intros <-.
        replace a with r in * by congruence. congruence. }
    split; [done|]. intros Hnot. by destruct Hnot.
Qed.

(** X16.  [SavedProductToggleView.post] toggles.  For a product that is not
    stored it answers 404 and changes nothing.  Otherwise, while no pair
    has two rows, it never fails on several rows: a pair that was not
    saved is saved and answered with 201, a pair that was saved is
    unsaved and answered with 200; no other pair changes, and still no
    pair has two rows. *)
Theorem toggle_saves_or_unsaves (now : Z) (user product_id : positive)
    (db : Store) (acc : Accounts) :
  (products db !! product_id = None →
   SavedProductToggleView_post now user product_id db acc = (acc, Http404))
  ∧ (is_Some (products db !! product_id) → saved_unique acc →
     ∃ acc' response,
       SavedProductToggleView_post now user product_id db acc
       = (acc', response)
       ∧ saved_unique acc'
       ∧ search_history acc' = search_history acc
       ∧ (is_saved user product_id acc' ↔ ¬ is_saved user product_id acc)
       ∧ (∀ u p, (u, p) ≠ (user, product_id) →
                 is_saved u p acc' ↔ is_saved u p acc)
       ∧ (is_saved user product_id acc →
          response = Response_200 "Product unsaved successfully.")
       ∧ (¬ is_saved user product_id acc →
          ∃ k, response
               = Response_201 (k, SavedProduct.mk user product_id now)
               ∧ saved_products acc !! k = None
               ∧ saved_products acc' !! k
                 = Some (SavedProduct.mk user product_id now))).
Proof. exact (toggle_post_run now user product_id db acc). Qed.

(** X17.  Two posts in a row leave every pair as it was. *)
Theorem toggle_twice_restores (now now' : Z) (user product_id : positive)
    (db : Store) (acc : Accounts) :
  saved_unique acc →
  let acc1 := (SavedProductToggleView_post now user product_id db acc).1 in
  let acc2 := (SavedProductToggleView_post now' user product_id db acc1).1 in
  saved_unique acc2
  ∧ ∀ u p, is_saved u p acc2 ↔ is_saved u p acc.
Proof.
  intros Hunique acc1 acc2.
  destruct (products db !! product_id) as [q|] eqn:Hq.
  - destruct (toggle_post_run now user product_id db acc)
      as [_ Hrun].
    destruct Hrun as (a1 & resp1 & Hrun1 & Hunique1 & _ & Hflip1 & Hrest1 & _);
      [by rewrite Hq|done|].
    destruct (toggle_post_run now' user product_id db a1)
      as [_ Hrun].
    destruct Hrun as (a2 & resp2 & Hrun2 & Hunique2 & _ & Hflip2 & Hrest2 & _);
      [by rewrite Hq|done|].
    subst acc2 acc1. rewrite Hrun1. cbn [fst]. rewrite Hrun2. cbn [fst].
    split; [done|]. intros u p.
    destruct (decide ((u, p) = (user, product_id))) as [[= -> ->]|Hne].
    + rewrite Hflip2, Hflip1.
      destruct (decide (is_saved user product_id acc)) as [Hs|Hs]; tauto.
    + by rewrite Hrest2, Hrest1.
  - destruct (toggle_post_run now user product_id db acc)
      as [H404 _].
    subst acc2 acc1. rewrite (H404 Hq). cbn [fst].
    destruct (toggle_post_run now' user product_id db acc)
      as [H404' _].
    rewrite (H404' Hq). by split.
Qed.
End toggle.

(** ** Clearing the search history *)

Section search_history.

Lemma elem_of_search_list user acc k h :
  (k, h) ∈ SearchHistoryListView_get_queryset user acc ↔
  search_history acc !! k = Some h ∧ SearchHistory.user h = user.
Proof.
  unfold SearchHistoryListView_get_queryset.
  rewrite merge_sort_Permutation, list_elem_of_filter, elem_of_map_to_list.
  cbn. tauto.
Qed.

Lemma NoDup_search_list user acc :
  NoDup (SearchHistoryListView_get_queryset user acc).
Proof.
  unfold SearchHistoryListView_get_queryset.
  rewrite merge_sort_Permutation.
  apply NoDup_filter, NoDup_map_to_list.
Qed.

(** X18.  [SearchHistoryClearView.delete] empties the list of the user who
    asks and of nobody else: afterwards that user's history view is
    empty, every other user's view holds the rows it held, saved products
    are untouched, and clearing again changes nothing. *)
Theorem search_history_clear_only_own (user : positive) (acc : Accounts) :
  let acc' := (SearchHistoryClearView_delete user acc).1 in
  SearchHistoryListView_get_queryset user acc' = []
  ∧ (∀ other, other ≠ user →
       SearchHistoryListView_get_queryset other acc'
       ≡ₚ SearchHistoryListView_get_queryset other acc)
  ∧ saved_products acc' = saved_products acc
  ∧ (SearchHistoryClearView_delete user acc').1 = acc'.
Proof.
  cbn. split; [|split; [|split; [done|]]].
  - apply elem_of_nil_inv. intros [k h].
    rewrite elem_of_search_list. cbn.
    rewrite map_lookup_filter_Some. cbn. intros [[_ Hne] Hu]. done.
  - intros other Hne. apply NoDup_Permutation; try apply NoDup_search_list.
    intros [k h]. rewrite !elem_of_search_list. cbn.
    rewrite map_lookup_filter_Some. cbn. split.
    + intros [[Hk _] Hu]. done.
    + intros [Hk Hu]. split; [split; [done|congruence]|done].
  - unfold SearchHistoryClearView_delete. cbn. f_equal.
    apply map_eq. intros k. apply option_eq. intros h.
    rewrite !map_lookup_filter_Some. cbn. split.
    + intros [[Hk Hu] _]. done.
    + intros [Hk Hu]. done.
Qed.
End search_history.

(** ** The statistics and the order of the rows *)

Section order.
Context `{Django}.
Import Product.

(** [Product.save] reads and writes the product table only. *)
Lemma Product_save_products_only now self db db' :
  products db = products db' →
  (Product_save now self db).2 = (Product_save now self db').2
  ∧ products (Product_save now self db).1
    = products (Product_save now self db').1.
Proof.
  intros Hsame. unfold Product_save, Model_save_Product.
  rewrite <- Hsame. by case_bool_decide.
Qed.

(** X19.  [update_price_stats] does not depend on the order in which the
    query returns the prices, nor on the keys the observations are
    stored under: on two stores with the same products whose available
    prices for the product are the same up to order, it returns the same
    object, or raises the same exception, and leaves the same product
    table. *)
Theorem price_stats_order_independent (now : Z) (self : Product.t)
    (db db' : Store) :
  products db = products db' →
  available_prices self db ≡ₚ available_prices self db' →
  (Product_update_price_stats now self db).2
  = (Product_update_price_stats now self db').2
  ∧ products (Product_update_price_stats now self db).1
    = products (Product_update_price_stats now self db').1.
Proof.
  intros Hsame Hperm. unfold Product_update_price_stats. unfold_M.
  pose proof (stats_of_perm _ _ Hperm) as Hstats.
  destruct (available_prices self db) as [|p ps],
    (available_prices self db') as [|q qs].
  - by split.
  - by apply Permutation_nil_cons in Hperm.
  - symmetry in Hperm. by apply Permutation_nil_cons in Hperm.
  - cbn zeta. unfold stats_of in Hstats.
    pose proof (f_equal (λ t, t.1.1) Hstats) as Hmin.
    pose proof (f_equal (λ t, t.1.2) Hstats) as Hmax.
    pose proof (f_equal snd Hstats) as Hmean.
    cbn [fst snd] in Hmin, Hmax, Hmean. rewrite Hmin, Hmax, Hmean.
    by apply Product_save_products_only.
Qed.
End order.

(** ** The properties on the concrete setting *)

Lemma catalog_step : step (H := django) empty_store catalog.
Proof.
  assert (catalog = (@Product_save django 100 widget empty_store).1) as ->
    by (vm_compute; reflexivity).
  apply step_Product_save.
Defined.

Lemma shop_step : step (H := django) catalog shop.
Proof.
  assert (shop
          = (@RetailerProductPrice_save django 200
               (observation stored_widget (Some 1%positive) None 1000 "USD")
               catalog).1) as ->
    by (vm_compute; reflexivity).
  apply step_RetailerProductPrice_save.
Defined.

Lemma listed_twice_step : step (H := django) shop listed_twice.1.
Proof.
  assert (listed_twice.1
          = (@RetailerProductPrice_save django 250
               (observation (RetailerProductPrice.product listing)
                            (Some 2%positive) None 800 "USD") shop).1) as ->
    by (vm_compute; reflexivity).
  apply step_RetailerProductPrice_save.
Defined.

Lemma shop_reachable : reachable (H := django) shop.
Proof.
  apply (rtc_l _ _ catalog); [exact catalog_step|].
  apply rtc_once. exact shop_step.
Defined.

Lemma catalog_consistent : consistent (H := django) catalog.
Proof.
  apply (step_consistent empty_store);
    [exact catalog_step|apply consistent_empty].
Defined.

Lemma listed_twice_consistent : consistent (H := django) listed_twice.1.
Proof.
  apply (step_consistent shop); [exact listed_twice_step|].
  apply (step_consistent catalog); [exact shop_step|].
  exact catalog_consistent.
Defined.


(** X8, witness: the shop is reached by two saves, so it has no history. *)
Lemma reachable_no_history_witness :
  price_history shop = ∅
  ∧ ProductPriceHistoryView_get_queryset "blue-widget" shop = [].
Proof.
  destruct (@reachable_no_history django shop shop_reachable)
    as (Hhist & _ & Hview).
  split; [exact Hhist|apply Hview].
Defined.


(** X4, witness: a second widget of the same name is refused. *)
Lemma Product_save_same_name_refused_witness :
  @Product_save django 150 widget catalog = (catalog, Raise IntegrityError).
Proof.
  apply (@Product_save_same_name_refused django 100 150 widget widget
           empty_store catalog stored_widget).
  - reflexivity.
  - reflexivity.
  - vm_compute. reflexivity.
Defined.


(** X6, witness. *)
Lemma update_product_prices_twice_witness :
  ∃ db1 db2 message,
    @update_product_prices django 400 listed_twice.1 = (db1, Ok message)
    ∧ @update_product_prices django 500 db1 = (db2, Ok message)
    ∧ ∀ k, Product.stats <$> products db2 !! k
           = Product.stats <$> products db1 !! k.
Proof.
  exact (@update_product_prices_twice django 400 500 listed_twice.1
           listed_twice_consistent).
Defined.

(** X7, witness: a view of the widget counted after it was fetched is lost when the
    object fetched is recomputed. *)
Lemma stale_object_loses_view_witness :
  ∃ r1 db2 r2 r2',
    products (@increment_view_count django 1%positive listed_twice.1).1
      !! 1%positive = Some r1
    ∧ Product.view_count r1 = 1%nat
    ∧ @Product_update_price_stats django 400 stocked_widget
        (@increment_view_count django 1%positive listed_twice.1).1
      = (db2, Ok r2)
    ∧ products db2 !! 1%positive = Some r2'
    ∧ Product.view_count r2' = 0%nat.
Proof.
  destruct (@stale_object_loses_view django 400 listed_twice.1 1%positive
              stocked_widget listed_twice_consistent)
    as (db1 & r1 & db2 & r2 & <- & Hr1 & Hcount & Hrun & r2' & Hr2' & Hlost
        & _);
    [vm_compute; reflexivity|].
  exists r1, db2, r2, r2'. split; [exact Hr1|]. split; [exact Hcount|].
  split; [exact Hrun|]. split; [exact Hr2'|].
  rewrite Hlost; [reflexivity|]. vm_compute. discriminate.
Defined.

(** X9, witness: the four refusals. *)
Lemma save_refuses_before_writing_witness :
  @RetailerProductPrice_save django 300 unknown_row catalog
  = (catalog, Raise DoesNotExist)
  ∧ @RetailerProductPrice_save django 300 of_unsaved_product catalog
    = (catalog, Raise ValueError)
  ∧ @RetailerProductPrice_save django 300 of_missing_product catalog
    = (catalog, Raise IntegrityError)
  ∧ @RetailerProductPrice_save django 300 listed_again shop
    = (shop, Raise IntegrityError).
Proof.
  split; [|split; [|split]].
  - apply (proj1 (@save_refuses_before_writing django 300 unknown_row
                    catalog) 7%positive); reflexivity.
  - apply (proj1 (proj2 (@save_refuses_before_writing django 300
                           of_unsaved_product catalog)));
      [intros k; vm_compute; discriminate|reflexivity].
  - apply (proj1 (proj2 (proj2 (@save_refuses_before_writing django 300
                                  of_missing_product catalog)))
             ltac:(intros k; vm_compute; discriminate) 9%positive);
      reflexivity.
  - apply (proj2 (proj2 (proj2 (@save_refuses_before_writing django 300
                                  listed_again shop)))
             ltac:(intros k; vm_compute; discriminate)
             1%positive 1%positive
             (RetailerProductPrice.set_product 1%positive listing)).
    + reflexivity.
    + vm_compute. reflexivity.
    + discriminate.
    + vm_compute. reflexivity.
Defined.

(** X10, witness: a sweep on day 900 and one on day 1000 leave what one sweep on day
    1000 leaves. *)
Lemma clean_old_price_data_composes_witness :
  (clean_old_price_data (1000 * day)
     (clean_old_price_data (900 * day) archive).1).1
  = swept_archive.
Proof.
  destruct (clean_old_price_data_composes (900 * day) (1000 * day) archive)
    as [Hboth _]; [unfold day; lia|].
  exact Hboth.
Defined.

(** X11, witness: the history of the widget, and of a slug no product carries. *)
Lemma price_history_view_newest_first_witness :
  (3%positive, entry 1000 800)
  ∈ ProductPriceHistoryView_get_queryset "blue-widget" archive
  ∧ ProductPriceHistoryView_get_queryset "red-widget" archive = [].
Proof.
  split.
  - apply (proj1 (proj2 (proj2 (price_history_view_newest_first
                                  "blue-widget" archive)))).
    split; [vm_compute; reflexivity|].
    exists stored_widget. split; vm_compute; reflexivity.
  - apply (proj2 (proj2 (proj2 (price_history_view_newest_first
                                  "red-widget" archive)))).
    change (map_Forall (λ (_ : positive) (p : Product.t),
                          Product.slug p ≠ "red-widget")
                       (products archive)).
    apply (bool_decide_unpack _). vm_compute. exact I.
Defined.

(** X14, witness: an observation without a source is saved and cannot be printed. *)
Lemma sourceless_saved_not_printable_witness :
  ∃ db' self',
    @RetailerProductPrice_save django 200 sourceless catalog = (db', Ok self')
    ∧ RetailerProductPrice_str (λ _, "Shop") (λ _, "Corner Shop") self'
      = AttributeError.
Proof.
  destruct (@sourceless_saved_not_printable django (λ _, "Shop")
              (λ _, "Corner Shop") 200 sourceless catalog)
    as (db' & self' & Hrun & Hstr & _).
  { reflexivity. }
  { reflexivity. }
  { split; [intros k; vm_compute; discriminate|].
    exists 1%positive. split; [vm_compute; reflexivity|].
    split; [vm_compute; eauto|].
    split; apply (bool_decide_unpack _); vm_compute; exact I. }
  by exists db', self'.
Defined.

(** X15, witness: saving the active configuration and running it; saving the idle one
    and running it. *)
Lemma ScraperConfig_save_then_run_witness :
  @ScraperConfig_save django None config empty_store
  = (scrapers, Ok (1%positive, config))
  ∧ run_scraper 1%positive scrapers = (scrapers, Ok tt)
  ∧ ∃ db' stored,
      @ScraperConfig_save django None idle_config empty_store
      = (db', Ok (1%positive, stored))
      ∧ ScraperConfig.slug stored = "idle-shop"
      ∧ log (run_scraper 1%positive db').1
        = ["Scraper configuration with ID 1 not found or not active."].
Proof.
  split; [|split].
  - destruct (@ScraperConfig_save_then_run django None config empty_store)
      as (db' & key & stored & Hrun & _);
      [apply (bool_decide_unpack _); vm_compute; exact I|].
    rewrite Hrun. vm_compute in Hrun. by injection Hrun as <- <- <-.
  - destruct (@ScraperConfig_save_then_run django None config empty_store)
      as (db' & key & stored & Hrun & _ & _ & _ & _ & _ & _ & _ & _ & _ & _
          & _ & Hactive & _);
      [apply (bool_decide_unpack _); vm_compute; exact I|].
    vm_compute in Hrun. injection Hrun as <- <- <-.
    apply Hactive. reflexivity.
  - destruct (@ScraperConfig_save_then_run django None idle_config
                empty_store)
      as (db' & key & stored & Hrun & _ & _ & _ & Hslug & _ & _ & _ & _ & _
          & _ & Hlog & _ & Hidle);
      [apply (bool_decide_unpack _); vm_compute; exact I|].
    assert (key = 1%positive) as ->.
    { vm_compute in Hrun. by injection Hrun as <- <- <-. }
    exists db', stored. split; [exact Hrun|].
    split; [rewrite Hslug; vm_compute; reflexivity|].
    rewrite Hidle by reflexivity. cbn. rewrite Hlog.
    assert (log empty_store = []) as Hempty by reflexivity.
    vm_compute in Hrun. injection Hrun as <- <-.
    vm_compute. reflexivity.
Defined.

(** X16, witness: user 5 saves the widget. *)
Lemma toggle_saves_or_unsaves_witness :
  ∃ acc' k,
    SavedProductToggleView_post 10 5%positive 1%positive catalog no_accounts
    = (acc', Response_201 (k, SavedProduct.mk 5%positive 1%positive 10))
    ∧ is_saved 5%positive 1%positive acc'.
Proof.
  destruct (proj2 (toggle_saves_or_unsaves 10 5%positive 1%positive catalog
                     no_accounts))
    as (acc' & response & Hrun & _ & _ & Hflip & _ & _ & Hnew).
  { vm_compute. eauto. }
  { intros j k r r' Hj. cbn in Hj. by rewrite lookup_empty in Hj. }
  assert (¬ is_saved 5%positive 1%positive no_accounts) as Hnot.
  { intros (k & r & Hk & _). cbn in Hk. by rewrite lookup_empty in Hk. }
  destruct (Hnew Hnot) as (k & -> & _).
  exists acc', k. split; [exact Hrun|]. by apply Hflip.
Defined.

(** X17, witness: saving and unsaving leaves nothing saved. *)
Lemma toggle_twice_restores_witness :
  ¬ is_saved 5%positive 1%positive
      (SavedProductToggleView_post 20 5%positive 1%positive catalog
         (SavedProductToggleView_post 10 5%positive 1%positive catalog
            no_accounts).1).1.
Proof.
  destruct (toggle_twice_restores 10 20 5%positive 1%positive catalog
              no_accounts) as [_ Hsame].
  { intros j k r r' Hj. cbn in Hj. by rewrite lookup_empty in Hj. }
  rewrite (Hsame 5%positive 1%positive).
  intros (k & r & Hk & _). cbn in Hk. by rewrite lookup_empty in Hk.
Defined.

(** X19, witness: the two listings of the widget in either order. *)
Lemma price_stats_order_independent_witness :
  (@Product_update_price_stats django 400 stocked_widget listed_twice.1).2
  = (@Product_update_price_stats django 400 stocked_widget listed_reversed).2.
Proof.
  apply (@price_stats_order_independent django 400 stocked_widget
           listed_twice.1 listed_reversed).
  - vm_compute. reflexivity.
  - vm_compute. apply perm_swap.
Defined.
